(** * starter/starter/ml/data.py: [process_data] and [slide_performance]

    A shallow embedding of the feature-engineering module.  The module is
    glue around pandas, numpy and scikit-learn, so the development has
    three layers:

    - [Py]: the fragment of Python the module relies on (exceptions,
      attribute lookup on [None], [try ... except AttributeError]);
    - [Pandas], [Numpy], [Sklearn]: the library calls the module makes,
      modelled on integer- and string-valued cells;
    - the two functions of [data.py] themselves: [process_data] as a pure
      function on values and, in [Store], over a store of DataFrame
      objects; [slide_performance] over a file system.

    A cell of a table is an integer of an int64 column or a string of an
    object column.  Columns of floating point numbers and missing values
    (NaN, None) are outside the model.  A number of the output matrix is
    given by its value: an indicator is 0 or 1, and a float64 obtained
    from an integer is the integer it is rounded to. *)

From Stdlib Require Import ZArith String Ascii List Bool Lia Permutation Sorted.
From Stdlib Require Import DecimalString.
From stdpp Require Import gmap strings.
Import ListNotations.

Local Open Scope string_scope.
Local Open Scope list_scope.

(* ===================================================================== *)
(** ** Python: exceptions and attribute lookup                            *)
(* ===================================================================== *)

Module Py.

(** The exceptions that can reach [data.py]. *)
Inductive exn : Type :=
| KeyError
| AttributeError
| ValueError
| TypeError.

Inductive result (A : Type) : Type :=
| Ok (a : A)
| Raise (e : exn).
Arguments Ok {A} a.
Arguments Raise {A} e.

Definition bind {A B : Type} (m : result A) (k : A -> result B) : result B :=
  match m with
  | Ok a => k a
  | Raise e => Raise e
  end.

(** [o.attr] where [o] may be [None]: looking up any attribute of
    [None] raises [AttributeError]. *)
Definition attr {A : Type} (o : option A) : result A :=
  match o with
  | Some a => Ok a
  | None => Raise AttributeError
  end.

(** [try: body  except AttributeError: handler]. *)
Definition try_except_AttributeError {A : Type}
    (body : result A) (handler : result A) : result A :=
  match body with
  | Raise AttributeError => handler
  | r => r
  end.

Definition is_ok {A : Type} (r : result A) : bool :=
  match r with Ok _ => true | Raise _ => false end.

End Py.
Export Py.

Declare Scope py_scope.
Delimit Scope py_scope with py.
Notation "x <- m ;; k" := (bind m (fun x => k))
  (at level 100, m at next level, k at level 200, right associativity)
  : py_scope.
Local Open Scope py_scope.

(** Split a conjunction into its parts, leaving definitions folded. *)
Ltac splits := repeat match goal with |- _ /\ _ => split end.

(* ===================================================================== *)
(** ** Cells                                                              *)
(* ===================================================================== *)

(** One entry of a table: an integer (of an int64 column) or a string.
    There is no missing value: a table with NaN or None in it is not
    described by this type. *)
Inductive cell : Type :=
| Num (z : Z)
| Str (s : string).

Definition cell_eqb (a b : cell) : bool :=
  match a, b with
  | Num x, Num y => Z.eqb x y
  | Str s, Str t => String.eqb s t
  | _, _ => false
  end.

(** The order Python gives to values of one type.  Comparing an integer
    with a string raises [TypeError] in Python; the callers below check
    [mixed] first, so the last two cases are never reached. *)
Definition cell_leb (a b : cell) : bool :=
  match a, b with
  | Num x, Num y => Z.leb x y
  | Str s, Str t => String.leb s t
  | Num _, Str _ => true
  | Str _, Num _ => false
  end.

Definition is_num (a : cell) : bool :=
  match a with Num _ => true | Str _ => false end.

(** A sequence holding both integers and strings. *)
Definition mixed (l : list cell) : bool :=
  existsb is_num l && existsb (fun a => negb (is_num a)) l.

(** Distinct values in order of first appearance ([Series.unique]). *)
Fixpoint unique (l : list cell) : list cell :=
  match l with
  | [] => []
  | x :: xs => x :: List.filter (fun y => negb (cell_eqb x y)) (unique xs)
  end.

Fixpoint insert_sorted (x : cell) (l : list cell) : list cell :=
  match l with
  | [] => [x]
  | y :: ys => if cell_leb x y then x :: l else y :: insert_sorted x ys
  end.

Definition sorted (l : list cell) : list cell :=
  fold_right insert_sorted [] l.

(** [str(value)] as used by [str.format]. *)
Definition str_of_cell (a : cell) : string :=
  match a with
  | Num z => NilZero.string_of_int (Z.to_int z)
  | Str s => s
  end.

(* ===================================================================== *)
(** ** pandas                                                             *)
(* ===================================================================== *)

Module Pandas.

(** A DataFrame: column labels and the rows under them.  The number of
    rows is kept when there is no column, as pandas keeps the index. *)
Record DataFrame : Type := mkDataFrame {
  columns : list string;
  rows : list (list cell)
}.

(** Column labels are distinct and every row has one cell per label. *)
Definition wf_df (X : DataFrame) : Prop :=
  List.NoDup (columns X) /\
  Forall (fun r => length r = length (columns X)) (rows X).

Definition has_column (X : DataFrame) (name : string) : bool :=
  existsb (String.eqb name) (columns X).

Fixpoint index_of (name : string) (cols : list string) : option nat :=
  match cols with
  | [] => None
  | c :: cs =>
      if String.eqb name c then Some 0
      else option_map S (index_of name cs)
  end.

(** The cell of a row at a position; never out of range on a
    well-formed frame. *)
Definition cell_at (i : nat) (r : list cell) : cell := nth i r (Num 0).

(** [X[name]] with a single label: the column as a Series, or
    [KeyError]. *)
Definition getitem (X : DataFrame) (name : string) : result (list cell) :=
  match index_of name (columns X) with
  | Some i => Ok (List.map (cell_at i) (rows X))
  | None => Raise KeyError
  end.

(** Positions of the requested labels, [KeyError] when one is absent. *)
Fixpoint indices_of (names cols : list string) : result (list nat) :=
  match names with
  | [] => Ok []
  | n :: ns =>
      match index_of n cols with
      | Some i => ixs <- indices_of ns cols ;; Ok (i :: ixs)
      | None => Raise KeyError
      end
  end.

(** [X[names]] with a list of labels: a new frame with those columns
    in the order asked for. *)
Definition getitem_list (X : DataFrame) (names : list string)
  : result DataFrame :=
  ixs <- indices_of names (columns X) ;;
  Ok {| columns := names;
        rows := List.map (fun r => List.map (fun i => cell_at i r) ixs)
                         (rows X) |}.

Definition mem (name : string) (names : list string) : bool :=
  existsb (String.eqb name) names.

(** Keep the entries of [l] whose label is not in [names]. *)
Fixpoint drop_labels {A : Type} (names cols : list string) (l : list A)
  : list A :=
  match cols, l with
  | c :: cs, a :: l' =>
      if mem c names then drop_labels names cs l'
      else a :: drop_labels names cs l'
  | _, _ => []
  end.

(** [X.drop(names, axis=1)]: a new frame without the named columns,
    the others in their original order; [KeyError] when a name is not a
    column. *)
Definition drop (X : DataFrame) (names : list string) : result DataFrame :=
  if forallb (has_column X) names
  then Ok {| columns := drop_labels names (columns X) (columns X);
             rows := List.map (drop_labels names (columns X)) (rows X) |}
  else Raise KeyError.

(** [X.values]: the rows as a two-dimensional array. *)
Definition values (X : DataFrame) : list (list cell) := rows X.

(** [X[X[name] == v]]: the rows whose cell under [name] equals [v]. *)
Definition filter_eq (X : DataFrame) (name : string) (v : cell)
  : result DataFrame :=
  match index_of name (columns X) with
  | Some i =>
      Ok {| columns := columns X;
            rows := List.filter (fun r => cell_eqb (cell_at i r) v) (rows X) |}
  | None => Raise KeyError
  end.

End Pandas.
Export Pandas.

(* ===================================================================== *)
(** ** numpy                                                              *)
(* ===================================================================== *)

Module Numpy.

(** A two-dimensional array as its list of rows. *)
Definition matrix : Type := list (list cell).

(** The dtype of an array is read off its cells: an array of integers
    only is an int64 array, an array with a string in it is an object
    array.  This is the dtype [DataFrame.values] has when every integer
    column has dtype int64. *)
Definition numeric_array (A : matrix) : bool :=
  forallb (forallb is_num) A.

(** The float64 nearest to a non-negative integer, ties to even: the
    integer itself up to 53 bits, otherwise rounded to 53 significant
    bits. *)
Definition float64_of_nonneg (z : Z) : Z :=
  let n := (Z.log2 z + 1)%Z in
  if (n <=? 53)%Z then z
  else
    let s := (n - 53)%Z in
    let q := Z.shiftr z s in
    let rest := (z - Z.shiftl q s)%Z in
    let half := Z.shiftl 1 (s - 1) in
    let q' :=
      if (half <? rest)%Z || ((rest =? half)%Z && Z.odd q)
      then (q + 1)%Z else q in
    Z.shiftl q' s.

(** [float(z)] for an int64 [z]. *)
Definition float64_of_int (z : Z) : Z :=
  if (z <? 0)%Z then (- float64_of_nonneg (- z))%Z else float64_of_nonneg z.

(** A cell of an int64 array promoted to float64. *)
Definition to_float64 (c : cell) : cell :=
  match c with
  | Num z => Num (float64_of_int z)
  | Str s => Str s
  end.

(** The left operand of a concatenation with a float64 array: an int64
    array is promoted to float64, an object array keeps its cells. *)
Definition promote (A : matrix) : matrix :=
  if numeric_array A then List.map (List.map to_float64) A else A.

Fixpoint zip_rows (A B : matrix) : matrix :=
  match A, B with
  | a :: A', b :: B' => (a ++ b) :: zip_rows A' B'
  | _, _ => []
  end.

(** [np.concatenate([A, B], axis=1)] with [B] a float64 array: the row
    counts must agree; the result is a float64 array when [A] is
    numeric, an object array otherwise. *)
Definition concatenate_axis1 (A B : matrix) : result matrix :=
  if Nat.eqb (length A) (length B) then Ok (zip_rows (promote A) B)
  else Raise ValueError.

(** [Y.ravel()] of a two-dimensional integer array, row by row. *)
Definition ravel (Y : list (list Z)) : list Z := concat Y.

End Numpy.
Export Numpy.

(* ===================================================================== *)
(** ** scikit-learn                                                       *)
(* ===================================================================== *)

Module Sklearn.

(** The fitted state of [OneHotEncoder(handle_unknown="ignore",
    sparse_output=False)]: per input feature, its categories. *)
Record OneHotEncoder : Type := mkOneHotEncoder {
  categories_ : list (list cell)
}.

(** The fitted state of [LabelBinarizer()]. *)
Record LabelBinarizer : Type := mkLabelBinarizer {
  classes_ : list cell
}.

(** Input validation shared by [fit] and [transform]: at least one
    sample and at least one feature, else [ValueError].  Returns the
    number of features. *)
Definition check_array (A : matrix) : result nat :=
  match A with
  | [] => Raise ValueError
  | r :: _ => if Nat.eqb (length r) 0 then Raise ValueError else Ok (length r)
  end.

Definition column (j : nat) (A : matrix) : list cell :=
  List.map (cell_at j) A.

(** The categories of one feature: its distinct values, sorted.  A
    feature holding both strings and numbers is refused. *)
Definition fit_categories (col : list cell) : result (list cell) :=
  if mixed col then Raise TypeError else Ok (sorted (unique col)).

Fixpoint fit_columns (A : matrix) (js : list nat)
  : result (list (list cell)) :=
  match js with
  | [] => Ok []
  | j :: js' =>
      c <- fit_categories (column j A) ;;
      cs <- fit_columns A js' ;;
      Ok (c :: cs)
  end.

(** [encoder.fit(A)]. *)
Definition ohe_fit (A : matrix) : result OneHotEncoder :=
  m <- check_array A ;;
  cats <- fit_columns A (seq 0 m) ;;
  Ok {| categories_ := cats |}.

(** The indicator block of one value: a 1 at the position of the value
    among the categories; all zeros when the value is not one of them
    ([handle_unknown="ignore"]). *)
Definition indicator (cats : list cell) (v : cell) : list cell :=
  List.map (fun c => if cell_eqb c v then Num 1 else Num 0) cats.

Fixpoint encode_row (cats : list (list cell)) (r : list cell) : list cell :=
  match cats, r with
  | c :: cs, v :: r' => indicator c v ++ encode_row cs r'
  | _, _ => []
  end.

(** Some feature of the encoder has a string among its categories: its
    categories are not a numeric array. *)
Definition has_str_category (enc : OneHotEncoder) : bool :=
  existsb (existsb (fun c => negb (is_num c))) (categories_ enc).

(** [encoder.transform(A)]: the feature count must be the fitted one,
    else [ValueError]; then the values of each feature are checked
    against its categories, and a numeric array cannot be checked
    against categories that are not numeric: [TypeError]. *)
Definition ohe_transform (enc : OneHotEncoder) (A : matrix) : result matrix :=
  m <- check_array A ;;
  if Nat.eqb m (length (categories_ enc))
  then
    if numeric_array A && has_str_category enc then Raise TypeError
    else Ok (List.map (encode_row (categories_ enc)) A)
  else Raise ValueError.

(** [encoder.fit_transform(A)]. *)
Definition ohe_fit_transform (A : matrix) : result (OneHotEncoder * matrix) :=
  enc <- ohe_fit A ;;
  Y <- ohe_transform enc A ;;
  Ok (enc, Y).

Inductive target_type : Type := binary | multiclass.

Definition is_binary (t : target_type) : bool :=
  match t with binary => true | multiclass => false end.

(** [type_of_target(y)] on a one-dimensional label array. *)
Definition type_of_target (y : list cell) : target_type :=
  if Nat.leb (length (unique y)) 2 then binary else multiclass.

(** [label_binarize(y, classes=classes)]: one indicator column per
    class, reduced to the last column when the target is binary; a
    lone class gives a column of zeros. *)
Definition label_binarize (y classes : list cell) : list (list Z) :=
  let n_classes := length classes in
  let y_type := type_of_target y in
  if is_binary y_type && Nat.eqb n_classes 1
  then List.map (fun _ => [0%Z]) y
  else
    let y_type :=
      if is_binary y_type && Nat.leb 3 n_classes then multiclass else y_type in
    let Y :=
      List.map (fun v =>
        List.map (fun c => if cell_eqb c v then 1%Z else 0%Z) classes) y in
    if is_binary y_type then List.map (fun r => [List.last r 0%Z]) Y else Y.

(** [lb.fit(y)]: refuses an empty target ([ValueError]) and a target
    mixing strings and numbers ([TypeError]). *)
Definition lb_fit (y : list cell) : result LabelBinarizer :=
  if Nat.eqb (length y) 0 then Raise ValueError
  else if mixed y then Raise TypeError
  else Ok {| classes_ := sorted (unique y) |}.

(** [lb.transform(y)]: refuses a target mixing strings and numbers
    ([TypeError]) and integer labels against classes that are strings
    ([ValueError]). *)
Definition lb_transform (lb : LabelBinarizer) (y : list cell)
  : result (list (list Z)) :=
  if mixed y then Raise TypeError
  else if forallb is_num y && existsb (fun c => negb (is_num c)) (classes_ lb)
  then Raise ValueError
  else Ok (label_binarize y (classes_ lb)).

(** [lb.fit_transform(y)]. *)
Definition lb_fit_transform (y : list cell)
  : result (LabelBinarizer * list (list Z)) :=
  lb <- lb_fit y ;;
  Y <- lb_transform lb y ;;
  Ok (lb, Y).

End Sklearn.
Export Sklearn.

(* ===================================================================== *)
(** ** data.py                                                            *)
(* ===================================================================== *)

(** What the name [y] is bound to inside [process_data]: the raw label
    Series, or a numpy array (the empty [np.array([])], or the binarized
    labels after [ravel]). *)
Inductive labels : Type :=
| Series (l : list cell)
| Ndarray (l : list Z).

(** [y.values]: a Series has the attribute, a numpy array does not. *)
Definition values_attr (y : labels) : result (list cell) :=
  match y with
  | Series l => Ok l
  | Ndarray _ => Raise AttributeError
  end.

(** Number of entries of the returned labels. *)
Definition labels_length (y : labels) : nat :=
  match y with
  | Series l => length l
  | Ndarray l => length l
  end.

Definition outputs : Type :=
  (matrix * labels * option OneHotEncoder * option LabelBinarizer)%type.

(** [process_data(X, categorical_features=[], label=None, training=True,
    encoder=None, lb=None)]. *)
Definition process_data (X : DataFrame) (categorical_features : list string)
    (label : option string) (training : bool)
    (encoder : option OneHotEncoder) (lb : option LabelBinarizer)
  : result outputs :=
  yX <- match label with
        | Some l =>
            y <- getitem X l ;;
            X' <- drop X [l] ;;
            Ok (Series y, X')
        | None => Ok (Ndarray [], X)
        end ;;
  let y := fst yX in
  let X := snd yX in
  Xc <- getitem_list X categorical_features ;;
  let X_categorical := values Xc in
  X_continuous <- drop X categorical_features ;;
  fitted <-
    (if training then
       eX <- ohe_fit_transform X_categorical ;;
       yv <- values_attr y ;;
       lY <- lb_fit_transform yv ;;
       Ok (snd eX, Ndarray (ravel (snd lY)), Some (fst eX), Some (fst lY))
     else
       enc <- attr encoder ;;
       X_categorical <- ohe_transform enc X_categorical ;;
       y <- try_except_AttributeError
              (l <- attr lb ;;
               yv <- values_attr y ;;
               Y <- lb_transform l yv ;;
               Ok (Ndarray (ravel Y)))
              (Ok y) ;;
       Ok (X_categorical, y, encoder, lb)) ;;
  let '(X_categorical, y, encoder, lb) := fitted in
  Xout <- concatenate_axis1 (values X_continuous) X_categorical ;;
  Ok (Xout, y, encoder, lb).

(** The module-level default of [slide_performance]. *)
Definition categorical_features : list string :=
  ["workclass"; "education"; "marital-status"; "occupation";
   "relationship"; "race"; "sex"; "native-country"].

(* --------------------------------------------------------------------- *)
(** *** The slice reporter                                                *)
(* --------------------------------------------------------------------- *)

(** A file system: path to content. *)
Abbreviation filesystem := (gmap string string).

(** [open(path, 'w')]: the file is created or truncated. *)
Definition open_w (path : string) (fs : filesystem) : filesystem :=
  <[path := EmptyString]> fs.

(** [f.write(line)] on a file opened for writing. *)
Definition write (path line : string) (fs : filesystem) : filesystem :=
  <[path := (default EmptyString (fs !! path) ++ line)%string]> fs.

Definition log_path : string := "log_slice_performance.txt".

Definition newline : string := String (ascii_of_nat 10) EmptyString.

(** ["Feature {value} of the Categorical {cat}: Precision:{precision} |
    Recall:{recall} | Fbeta:{fbeta}\n".format(...)]. *)
Definition format_line (value cat precision recall fbeta : string) : string :=
  ("Feature " ++ value ++ " of the Categorical " ++ cat ++
   ": Precision:" ++ precision ++ " | Recall:" ++ recall ++
   " | Fbeta:" ++ fbeta ++ newline)%string.

Section Reporter.

(** The collaborators: a trained model with [predict], the metrics
    function of [model.py], and the printing of a metric. *)
Context {Model Pred Metric : Type}.
Variable predict : Model -> matrix -> result Pred.
Variable compute_model_metrics :
  labels -> Pred -> result (Metric * Metric * Metric).
Variable str_of_metric : Metric -> string.

(** The body of the inner loop up to the formatted line. *)
Definition slice_line (model : Model) (data : DataFrame)
    (encoder : option OneHotEncoder) (lb : option LabelBinarizer)
    (categorical_features : list string)
    (categorical : string) (value : cell) : result string :=
  data_preformance <- filter_eq data categorical value ;;
  out <- process_data data_preformance categorical_features
           (Some "salary") false encoder lb ;;
  let '(X, y, _, _) := out in
  y_pred <- predict model X ;;
  m <- compute_model_metrics y y_pred ;;
  let '(precision, recall, fbeta) := m in
  Ok (format_line (str_of_cell value) categorical
        (str_of_metric precision) (str_of_metric recall)
        (str_of_metric fbeta)).

(** [for value in data[categorical].unique(): ...]. *)
Fixpoint for_values (model : Model) (data : DataFrame)
    (encoder : option OneHotEncoder) (lb : option LabelBinarizer)
    (categorical_features : list string) (categorical : string)
    (vals : list cell) (fs : filesystem) : result unit * filesystem :=
  match vals with
  | [] => (Ok tt, fs)
  | value :: vals' =>
      match slice_line model data encoder lb categorical_features
              categorical value with
      | Ok line =>
          for_values model data encoder lb categorical_features
            categorical vals' (write log_path line fs)
      | Raise e => (Raise e, fs)
      end
  end.

(** [for categorical in categorical_features: ...]. *)
Fixpoint for_categoricals (model : Model) (data : DataFrame)
    (encoder : option OneHotEncoder) (lb : option LabelBinarizer)
    (categorical_features : list string)
    (todo : list string) (fs : filesystem) : result unit * filesystem :=
  match todo with
  | [] => (Ok tt, fs)
  | categorical :: todo' =>
      match getitem data categorical with
      | Ok col =>
          match for_values model data encoder lb categorical_features
                  categorical (unique col) fs with
          | (Ok _, fs') =>
              for_categoricals model data encoder lb categorical_features
                todo' fs'
          | (Raise e, fs') => (Raise e, fs')
          end
      | Raise e => (Raise e, fs)
      end
  end.

(** [slide_performance(model, data, encoder, lb, categorical_features)]:
    the file is opened for writing, the loops run, the file is closed
    when the [with] block is left, also by an exception. *)
Definition slide_performance (model : Model) (data : DataFrame)
    (encoder : option OneHotEncoder) (lb : option LabelBinarizer)
    (categorical_features : list string) (fs : filesystem)
  : result unit * filesystem :=
  for_categoricals model data encoder lb categorical_features
    categorical_features (open_w log_path fs).

End Reporter.

(* --------------------------------------------------------------------- *)
(** *** [process_data] over a store of DataFrame objects                  *)
(* --------------------------------------------------------------------- *)

(** In Python the argument [X] is a reference to an object the caller
    still holds.  The store maps references to DataFrame objects; a
    computation may read it, allocate in it and, with the in-place
    variants of the pandas methods, overwrite an object. *)
Module Store.

Abbreviation ref := positive.
Abbreviation store := (gmap positive DataFrame).

(** A computation: [None] when it follows a reference that is not in
    the store, which a Python program cannot do. *)
Definition St (A : Type) : Type := store -> option (result A * store).

Definition ret {A : Type} (r : result A) : St A := fun s => Some (r, s).

Definition bindS {A B : Type} (m : St A) (k : A -> St B) : St B :=
  fun s =>
    match m s with
    | Some (Ok a, s') => k a s'
    | Some (Raise e, s') => Some (Raise e, s')
    | None => None
    end.

(** Read the object behind a reference and compute with it. *)
Definition read {A : Type} (x : ref) (f : DataFrame -> result A) : St A :=
  fun s =>
    match s !! x with
    | Some d => Some (f d, s)
    | None => None
    end.

(** Allocate a new object. *)
Definition alloc (d : DataFrame) : St ref :=
  fun s => let x := fresh (dom s) in Some (Ok x, <[x := d]> s).

(** [X[name]]. *)
Definition df_getitem (x : ref) (name : string) : St (list cell) :=
  read x (fun d => getitem d name).

(** [X[names]]: a new object. *)
Definition df_getitem_list (x : ref) (names : list string) : St ref :=
  bindS (read x (fun d => getitem_list d names)) alloc.

(** [X.drop(names, axis=1)], with the default [inplace=False]: a new
    object. *)
Definition df_drop (x : ref) (names : list string) : St ref :=
  bindS (read x (fun d => drop d names)) alloc.

(** [X.drop(names, axis=1, inplace=True)]: the object itself loses the
    columns.  [process_data] does not use it. *)
Definition df_drop_inplace (x : ref) (names : list string) : St unit :=
  fun s =>
    match s !! x with
    | Some d =>
        match drop d names with
        | Ok d' => Some (Ok tt, <[x := d']> s)
        | Raise e => Some (Raise e, s)
        end
    | None => None
    end.

(** [X.values]. *)
Definition df_values (x : ref) : St matrix :=
  read x (fun d => Ok (values d)).

(** [process_data] with [X] passed by reference. *)
Definition process_data_ref (X : ref) (categorical_features : list string)
    (label : option string) (training : bool)
    (encoder : option OneHotEncoder) (lb : option LabelBinarizer)
  : St outputs :=
  bindS
    (match label with
     | Some l =>
         bindS (df_getitem X l) (fun y =>
         bindS (df_drop X [l]) (fun X' =>
         ret (Ok (Series y, X'))))
     | None => ret (Ok (Ndarray [], X))
     end) (fun yX =>
  let y := fst yX in
  let X := snd yX in
  bindS (df_getitem_list X categorical_features) (fun Xc =>
  bindS (df_values Xc) (fun X_categorical =>
  bindS (df_drop X categorical_features) (fun X_continuous =>
  bindS (ret
    (if training then
       eX <- ohe_fit_transform X_categorical ;;
       yv <- values_attr y ;;
       lY <- lb_fit_transform yv ;;
       Ok (snd eX, Ndarray (ravel (snd lY)), Some (fst eX), Some (fst lY))
     else
       enc <- attr encoder ;;
       X_categorical <- ohe_transform enc X_categorical ;;
       y <- try_except_AttributeError
              (l <- attr lb ;;
               yv <- values_attr y ;;
               Y <- lb_transform l yv ;;
               Ok (Ndarray (ravel Y)))
              (Ok y) ;;
       Ok (X_categorical, y, encoder, lb))) (fun fitted =>
  let '(X_categorical, y, encoder, lb) := fitted in
  bindS (df_values X_continuous) (fun Xcont =>
  ret (Xout <- concatenate_axis1 Xcont X_categorical ;;
       Ok (Xout, y, encoder, lb)))))))).

End Store.

(* ===================================================================== *)
(** ** Worked examples                                                    *)
(* ===================================================================== *)

(** The table of the specification's example: one continuous column, one
    categorical column, the label. *)
Definition census_example : DataFrame :=
  {| columns := ["age"; "sex"; "salary"];
     rows := [[Num 25; Str "M"; Str "<=50K"];
              [Num 40; Str "F"; Str ">50K"]] |}.

Definition sex_encoder : OneHotEncoder :=
  {| categories_ := [[Str "F"; Str "M"]] |}.

Definition salary_binarizer : LabelBinarizer :=
  {| classes_ := [Str "<=50K"; Str ">50K"] |}.

(* ===================================================================== *)
(** ** Facts about cells and sequences                                    *)
(* ===================================================================== *)

Lemma cell_eqb_eq (a b : cell) : cell_eqb a b = true <-> a = b.
Proof.
  destruct a as [x|s], b as [y|t]; simpl.
  - rewrite Z.eqb_eq. split; congruence.
  - split; discriminate.
  - split; discriminate.
  - rewrite String.eqb_eq. split; congruence.
Qed.

Lemma cell_eqb_refl (a : cell) : cell_eqb a a = true.
Proof. now apply cell_eqb_eq. Qed.

Lemma insert_sorted_perm (x : cell) (l : list cell) :
  Permutation (x :: l) (insert_sorted x l).
Proof.
  induction l as [|y ys IH]; simpl.
  - reflexivity.
  - destruct (cell_leb x y).
    + reflexivity.
    + rewrite perm_swap. now apply perm_skip.
Qed.

Lemma sorted_perm (l : list cell) : Permutation l (sorted l).
Proof.
  induction l as [|x xs IH]; simpl.
  - reflexivity.
  - etransitivity; [apply perm_skip, IH | apply insert_sorted_perm].
Qed.

Lemma sorted_length (l : list cell) : length (sorted l) = length l.
Proof. symmetry. apply Permutation_length, sorted_perm. Qed.

Lemma In_sorted (x : cell) (l : list cell) : In x (sorted l) <-> In x l.
Proof.
  split; apply Permutation_in;
    [symmetry|]; apply sorted_perm.
Qed.

Lemma In_unique (x : cell) (l : list cell) : In x (unique l) <-> In x l.
Proof.
  induction l as [|y ys IH]; simpl; [tauto|].
  setoid_rewrite filter_In. rewrite IH.
  destruct (cell_eqb y x) eqn:E.
  - apply cell_eqb_eq in E. subst. simpl. intuition congruence.
  - simpl. intuition.
Qed.

Lemma NoDup_unique (l : list cell) : List.NoDup (unique l).
Proof.
  induction l as [|y ys IH]; simpl; constructor.
  - rewrite filter_In, cell_eqb_refl. simpl. intros [_ H]. discriminate.
  - now apply List.NoDup_filter.
Qed.

Lemma unique_nil_inv (l : list cell) : unique l = [] -> l = [].
Proof. destruct l; simpl; [reflexivity | discriminate]. Qed.

Lemma existsb_cell_eqb (v : cell) (l : list cell) :
  existsb (cell_eqb v) l = true <-> In v l.
Proof.
  rewrite existsb_exists. split.
  - intros (x & Hin & E). apply cell_eqb_eq in E. now subst.
  - intros Hin. exists v. split; [assumption | apply cell_eqb_refl].
Qed.

(** A part of an unmixed sequence is unmixed. *)
Lemma mixed_incl (l l' : list cell) :
  incl l l' -> mixed l' = false -> mixed l = false.
Proof.
  unfold mixed. intros Hin H.
  apply andb_false_iff in H. apply andb_false_iff.
  destruct H as [H|H]; [left|right];
    (destruct (existsb _ l) eqn:E; [|reflexivity]);
    apply existsb_exists in E; destruct E as (x & Hx & Px);
    rewrite <- H; symmetry; apply existsb_exists; exists x; auto.
Qed.

Lemma zip_rows_map {A : Type} (f g : A -> list cell) (l : list A) :
  zip_rows (List.map f l) (List.map g l) = List.map (fun r => f r ++ g r) l.
Proof. induction l; simpl; congruence. Qed.

(* ===================================================================== *)
(** ** Facts about the pandas model                                       *)
(* ===================================================================== *)

(** The cell of a row under a label. *)
Definition lookup_row (cols : list string) (r : list cell) (name : string)
  : cell :=
  match index_of name cols with
  | Some i => cell_at i r
  | None => Num 0
  end.

Lemma mem_In (n : string) (names : list string) :
  mem n names = true <-> In n names.
Proof.
  unfold mem. rewrite existsb_exists. split.
  - intros (x & Hx & E). apply String.eqb_eq in E. now subst.
  - intros H. exists n. split; [assumption | apply String.eqb_refl].
Qed.

Lemma mem_not_In (n : string) (names : list string) :
  mem n names = false <-> ~ In n names.
Proof.
  rewrite <- mem_In. destruct (mem n names); split; congruence.
Qed.

Lemma index_of_Some_In (n : string) (cols : list string) (i : nat) :
  index_of n cols = Some i -> In n cols.
Proof.
  revert i. induction cols as [|c cs IH]; simpl; intros i H; [discriminate|].
  destruct (String.eqb n c) eqn:E.
  - apply String.eqb_eq in E. now left.
  - destruct (index_of n cs); [|discriminate]. right. eapply IH. reflexivity.
Qed.

Lemma index_of_In (n : string) (cols : list string) :
  In n cols -> exists i, index_of n cols = Some i.
Proof.
  induction cols as [|c cs IH]; simpl; [tauto|].
  intros H. destruct (String.eqb n c) eqn:E; [eauto|].
  destruct H as [H|H].
  - subst. rewrite String.eqb_refl in E. discriminate.
  - destruct (IH H) as [i Hi]. rewrite Hi. simpl. eauto.
Qed.

Lemma lookup_row_head (c : string) (cs : list string) (a : cell)
    (r : list cell) :
  lookup_row (c :: cs) (a :: r) c = a.
Proof. unfold lookup_row. simpl. now rewrite String.eqb_refl. Qed.

Lemma lookup_row_tail (c n : string) (cs : list string) (a : cell)
    (r : list cell) :
  n <> c -> lookup_row (c :: cs) (a :: r) n = lookup_row cs r n.
Proof.
  intros Hne. unfold lookup_row. simpl.
  destruct (String.eqb n c) eqn:E.
  - apply String.eqb_eq in E. contradiction.
  - destruct (index_of n cs); reflexivity.
Qed.

(** Reading back a row built label by label. *)
Lemma lookup_row_map (f : string -> cell) (names : list string) (n : string) :
  In n names -> lookup_row names (List.map f names) n = f n.
Proof.
  induction names as [|c cs IH]; simpl; [tauto|].
  intros H. destruct (String.eqb n c) eqn:E.
  - apply String.eqb_eq in E. subst. apply lookup_row_head.
  - assert (n <> c) by (intros ->; rewrite String.eqb_refl in E; discriminate).
    rewrite lookup_row_tail by assumption.
    destruct H as [H|H]; [congruence | now apply IH].
Qed.

Lemma drop_labels_filter (names cols : list string) :
  drop_labels names cols cols =
  List.filter (fun c => negb (mem c names)) cols.
Proof.
  induction cols as [|c cs IH]; simpl; [reflexivity|].
  destruct (mem c names); simpl; congruence.
Qed.

Lemma drop_labels_lookup (names cols : list string) (r : list cell) :
  List.NoDup cols -> length r = length cols ->
  drop_labels names cols r =
  List.map (lookup_row cols r) (drop_labels names cols cols).
Proof.
  intros Hnd. revert r.
  induction Hnd as [|c cs Hc Hnd IH]; intros r Hlen.
  - destruct r; reflexivity.
  - destruct r as [|a r]; [discriminate|]. simpl in Hlen.
    assert (Htail : List.map (lookup_row (c :: cs) (a :: r))
                      (drop_labels names cs cs) =
                    List.map (lookup_row cs r) (drop_labels names cs cs)).
    { apply map_ext_in. intros n Hn. apply lookup_row_tail.
      rewrite drop_labels_filter in Hn. apply filter_In in Hn.
      intros ->. tauto. }
    simpl. destruct (mem c names); simpl.
    + rewrite Htail. apply IH. lia.
    + rewrite lookup_row_head, Htail. f_equal. apply IH. lia.
Qed.

Lemma drop_labels_nil {A : Type} (cols : list string) (l : list A) :
  length l = length cols -> drop_labels [] cols l = l.
Proof.
  revert cols. induction l as [|a l IH]; intros [|c cs] Hl; simpl in *;
    try reflexivity; try discriminate.
  f_equal. apply IH. lia.
Qed.

Lemma row_lookup_id (cols : list string) (r : list cell) :
  List.NoDup cols -> length r = length cols ->
  List.map (lookup_row cols r) cols = r.
Proof.
  intros Hnd Hlen.
  pose proof (drop_labels_lookup [] cols r Hnd Hlen) as H.
  rewrite (drop_labels_nil cols r Hlen), (drop_labels_nil cols cols eq_refl) in H.
  now symmetry.
Qed.

Lemma getitem_spec (X : DataFrame) (l : string) (y : list cell) :
  getitem X l = Ok y ->
  In l (columns X) /\
  y = List.map (fun r => lookup_row (columns X) r l) (rows X).
Proof.
  unfold getitem, lookup_row. destruct (index_of l (columns X)) eqn:E;
    [|discriminate].
  intros [= <-]. split; [eapply index_of_Some_In; eassumption | reflexivity].
Qed.

Lemma getitem_In (X : DataFrame) (l : string) :
  In l (columns X) ->
  getitem X l = Ok (List.map (fun r => lookup_row (columns X) r l) (rows X)).
Proof.
  intros H. destruct (index_of_In _ _ H) as [i Hi].
  unfold getitem, lookup_row. now rewrite Hi.
Qed.

Lemma indices_of_spec (names cols : list string) (ixs : list nat) :
  indices_of names cols = Ok ixs ->
  Forall (fun n => In n cols) names /\
  forall r, List.map (fun i => cell_at i r) ixs =
            List.map (lookup_row cols r) names.
Proof.
  revert ixs. induction names as [|n ns IH]; simpl; intros ixs H.
  - injection H as <-. split; [constructor | reflexivity].
  - destruct (index_of n cols) as [i|] eqn:Ei; [|discriminate].
    destruct (indices_of ns cols) as [js|] eqn:Ej; [|discriminate].
    simpl in H. injection H as <-.
    destruct (IH js eq_refl) as [Hall Hmap]. split.
    + constructor; [eapply index_of_Some_In; eassumption | assumption].
    + intros r. simpl. rewrite Hmap. unfold lookup_row at 2. now rewrite Ei.
Qed.

Lemma indices_of_In (names cols : list string) :
  Forall (fun n => In n cols) names ->
  exists ixs, indices_of names cols = Ok ixs.
Proof.
  induction 1 as [|n ns Hn _ [ixs IH]]; simpl; [eauto|].
  destruct (index_of_In _ _ Hn) as [i ->]. rewrite IH. simpl. eauto.
Qed.

Lemma getitem_list_spec (X Xc : DataFrame) (names : list string) :
  getitem_list X names = Ok Xc ->
  Forall (fun n => In n (columns X)) names /\
  columns Xc = names /\
  rows Xc = List.map (fun r => List.map (lookup_row (columns X) r) names)
                     (rows X).
Proof.
  unfold getitem_list.
  destruct (indices_of names (columns X)) as [ixs|] eqn:E; [|discriminate].
  simpl. intros [= <-]. destruct (indices_of_spec _ _ _ E) as [Hall Hmap].
  repeat split; [assumption|]. simpl. apply map_ext. intros r. apply Hmap.
Qed.

Lemma getitem_list_In (X : DataFrame) (names : list string) :
  Forall (fun n => In n (columns X)) names ->
  exists Xc, getitem_list X names = Ok Xc.
Proof.
  intros H. destruct (indices_of_In _ _ H) as [ixs E].
  unfold getitem_list. rewrite E. simpl. eauto.
Qed.

Lemma has_column_In (X : DataFrame) (n : string) :
  has_column X n = true <-> In n (columns X).
Proof. apply mem_In. Qed.

Lemma drop_spec (X X' : DataFrame) (names : list string) :
  wf_df X -> drop X names = Ok X' ->
  Forall (fun n => In n (columns X)) names /\
  columns X' = List.filter (fun c => negb (mem c names)) (columns X) /\
  rows X' = List.map (fun r => List.map (lookup_row (columns X) r) (columns X'))
                     (rows X) /\
  wf_df X'.
Proof.
  intros [Hnd Hlen]. unfold drop.
  destruct (forallb (has_column X) names) eqn:E; [|discriminate].
  intros [= <-]. simpl.
  assert (Hrows : List.map (drop_labels names (columns X)) (rows X) =
                  List.map (fun r => List.map (lookup_row (columns X) r)
                              (drop_labels names (columns X) (columns X)))
                           (rows X)).
  { apply map_ext_in. intros r Hr. apply drop_labels_lookup; [assumption|].
    rewrite List.Forall_forall in Hlen. now apply Hlen. }
  repeat split.
  - rewrite forallb_forall in E. apply List.Forall_forall. intros n Hn.
    apply has_column_In. now apply E.
  - apply drop_labels_filter.
  - exact Hrows.
  - simpl. rewrite drop_labels_filter. now apply List.NoDup_filter.
  - simpl. rewrite Hrows. apply List.Forall_forall. intros r Hr.
    apply in_map_iff in Hr. destruct Hr as (r0 & <- & _).
    now rewrite length_map.
Qed.

Lemma drop_In (X : DataFrame) (names : list string) :
  Forall (fun n => In n (columns X)) names ->
  exists X', drop X names = Ok X'.
Proof.
  intros H. unfold drop.
  replace (forallb (has_column X) names) with true; [eauto|].
  symmetry. apply forallb_forall. intros n Hn. apply has_column_In.
  rewrite List.Forall_forall in H. now apply H.
Qed.

(* ===================================================================== *)
(** ** Facts about the scikit-learn model                                 *)
(* ===================================================================== *)

Lemma check_array_spec (A : matrix) (m : nat) :
  check_array A = Ok m ->
  A <> [] /\ m = length (hd [] A) /\ m <> 0.
Proof.
  destruct A as [|r A]; simpl; [discriminate|].
  destruct (Nat.eqb (length r) 0) eqn:E; [discriminate|].
  apply Nat.eqb_neq in E. intros [= <-]. repeat split; try assumption.
  discriminate.
Qed.

Lemma check_array_rows (r : list cell) (A : matrix) :
  length r <> 0 -> check_array (r :: A) = Ok (length r).
Proof.
  intros H. simpl. apply Nat.eqb_neq in H. now rewrite H.
Qed.

Lemma fit_columns_spec (A : matrix) (js : list nat) (cs : list (list cell)) :
  fit_columns A js = Ok cs ->
  cs = List.map (fun j => sorted (unique (column j A))) js.
Proof.
  revert cs. induction js as [|j js IH]; simpl; intros cs H.
  - now injection H as <-.
  - unfold fit_categories in H.
    destruct (mixed (column j A)); [discriminate|]. simpl in H.
    destruct (fit_columns A js) as [cs'|]; [|discriminate].
    simpl in H. injection H as <-. f_equal. now apply IH.
Qed.

Lemma fit_columns_unmixed (A : matrix) (js : list nat) :
  Forall (fun j => mixed (column j A) = false) js ->
  fit_columns A js =
  Ok (List.map (fun j => sorted (unique (column j A))) js).
Proof.
  induction 1 as [|j js Hj _ IH]; simpl; [reflexivity|].
  unfold fit_categories. now rewrite Hj, IH.
Qed.

Lemma indicator_length (cats : list cell) (v : cell) :
  length (indicator cats v) = length cats.
Proof. apply length_map. Qed.

(** A value outside the categories gets the all-zero block. *)
Lemma indicator_unknown (cats : list cell) (v : cell) :
  ~ In v cats -> indicator cats v = repeat (Num 0) (length cats).
Proof.
  unfold indicator. induction cats as [|c cs IH]; simpl; intros H.
  - reflexivity.
  - destruct (cell_eqb c v) eqn:E.
    + apply cell_eqb_eq in E. tauto.
    + f_equal. apply IH. tauto.
Qed.

(** The width of an encoded row: the categories of all features. *)
Definition encoded_width (cats : list (list cell)) : nat :=
  list_sum (List.map (@length cell) cats).

Lemma encode_row_length (cats : list (list cell)) (r : list cell) :
  length r = length cats ->
  length (encode_row cats r) = encoded_width cats.
Proof.
  unfold encoded_width. revert r.
  induction cats as [|c cs IH]; intros [|v r] H; simpl in *;
    try reflexivity; try discriminate.
  rewrite length_app, indicator_length. f_equal. apply IH. lia.
Qed.

Lemma ohe_transform_spec (enc : OneHotEncoder) (A Y : matrix) :
  ohe_transform enc A = Ok Y ->
  A <> [] /\ length (hd [] A) = length (categories_ enc) /\
  categories_ enc <> [] /\
  Y = List.map (encode_row (categories_ enc)) A.
Proof.
  unfold ohe_transform. destruct (check_array A) as [m|] eqn:E; [|discriminate].
  simpl. destruct (Nat.eqb m (length (categories_ enc))) eqn:Em; [|discriminate].
  destruct (numeric_array A && has_str_category enc); [discriminate|].
  apply Nat.eqb_eq in Em. apply check_array_spec in E.
  destruct E as (HA & Hm & Hm0). intros [= <-]. repeat split; try assumption.
  - congruence.
  - intros Hnil. rewrite Hnil in Em. simpl in Em. congruence.
Qed.

Lemma ohe_fit_spec (A : matrix) (enc : OneHotEncoder) :
  ohe_fit A = Ok enc ->
  A <> [] /\ length (hd [] A) <> 0 /\
  categories_ enc =
  List.map (fun j => sorted (unique (column j A))) (seq 0 (length (hd [] A))).
Proof.
  unfold ohe_fit. destruct (check_array A) as [m|] eqn:E; [|discriminate].
  simpl. destruct (fit_columns A (seq 0 m)) as [cs|] eqn:Ec; [|discriminate].
  simpl. intros [= <-]. simpl. apply check_array_spec in E.
  destruct E as (HA & -> & Hm0). apply fit_columns_spec in Ec.
  repeat split; assumption.
Qed.

Lemma ohe_fit_transform_spec (A Y : matrix) (enc : OneHotEncoder) :
  ohe_fit_transform A = Ok (enc, Y) ->
  ohe_fit A = Ok enc /\ ohe_transform enc A = Ok Y.
Proof.
  unfold ohe_fit_transform. destruct (ohe_fit A) as [e|]; [|discriminate].
  simpl. destruct (ohe_transform e A) as [Y'|] eqn:E; [|discriminate].
  simpl. intros [= <- <-]. split; [reflexivity | exact E].
Qed.

(** The number of entries of a binarized label array, per label. *)
Definition label_width (y classes : list cell) : nat :=
  if is_binary (type_of_target y) && Nat.leb (length classes) 2 then 1
  else length classes.

Lemma length_concat_map {A B : Type} (f : A -> list B) (w : nat)
    (l : list A) :
  (forall x, length (f x) = w) ->
  length (concat (List.map f l)) = length l * w.
Proof.
  intros Hf. induction l as [|a l IH]; simpl; [reflexivity|].
  now rewrite length_app, IH, Hf.
Qed.

Lemma label_binarize_length (y classes : list cell) :
  length (ravel (label_binarize y classes)) =
  length y * label_width y classes.
Proof.
  unfold ravel, label_binarize, label_width.
  destruct (is_binary (type_of_target y)) eqn:Eb; cbn [andb].
  - destruct (Nat.eqb (length classes) 1) eqn:E1.
    + apply Nat.eqb_eq in E1. rewrite E1. cbn [Nat.leb].
      now apply length_concat_map.
    + destruct (Nat.leb 3 (length classes)) eqn:E3.
      * replace (Nat.leb (length classes) 2) with false
          by (symmetry; apply Nat.leb_gt; apply Nat.leb_le in E3; lia).
        cbn [is_binary]. apply length_concat_map. intros v. apply length_map.
      * replace (Nat.leb (length classes) 2) with true
          by (symmetry; apply Nat.leb_le; apply Nat.leb_gt in E3; lia).
        rewrite Eb, map_map. now apply length_concat_map.
  - rewrite Eb. apply length_concat_map. intros v. apply length_map.
Qed.

(* ===================================================================== *)
(** ** The stages of [process_data]                                       *)
(* ===================================================================== *)

Definition is_label (label : option string) (c : string) : bool :=
  match label with
  | Some l => String.eqb c l
  | None => false
  end.

(** The continuous columns: every column that is neither the label nor
    categorical, in the order of the table. *)
Definition continuous_columns (X : DataFrame) (cats : list string)
    (label : option string) : list string :=
  List.filter (fun c => negb (is_label label c) && negb (mem c cats))
              (columns X).

(** The raw labels bound to [y] by lines 60-64. *)
Definition raw_labels (X : DataFrame) (label : option string) : labels :=
  match label with
  | Some l => Series (List.map (fun r => lookup_row (columns X) r l) (rows X))
  | None => Ndarray []
  end.

(** The values of the categorical columns, row by row. *)
Definition categorical_values (X : DataFrame) (cats : list string) : matrix :=
  List.map (fun r => List.map (lookup_row (columns X) r) cats) (rows X).

(** The values of the continuous columns, row by row. *)
Definition continuous_values (X : DataFrame) (cats : list string)
    (label : option string) : matrix :=
  List.map (fun r => List.map (lookup_row (columns X) r)
                       (continuous_columns X cats label)) (rows X).

(** Lines 60-67: the label is split off and the columns partitioned. *)
Definition partition_columns (X : DataFrame) (cats : list string)
    (label : option string) : result (labels * matrix * matrix) :=
  yX <- match label with
        | Some l =>
            y <- getitem X l ;;
            X' <- drop X [l] ;;
            Ok (Series y, X')
        | None => Ok (Ndarray [], X)
        end ;;
  Xc <- getitem_list (snd yX) cats ;;
  X_continuous <- drop (snd yX) cats ;;
  Ok (fst yX, values Xc, values X_continuous).

(** Lines 69-80 on the partitioned data. *)
Definition fit_or_transform (y : labels) (X_categorical : matrix)
    (training : bool) (encoder : option OneHotEncoder)
    (lb : option LabelBinarizer)
  : result (matrix * labels * option OneHotEncoder * option LabelBinarizer) :=
  if training then
    eX <- ohe_fit_transform X_categorical ;;
    yv <- values_attr y ;;
    lY <- lb_fit_transform yv ;;
    Ok (snd eX, Ndarray (ravel (snd lY)), Some (fst eX), Some (fst lY))
  else
    enc <- attr encoder ;;
    X_categorical <- ohe_transform enc X_categorical ;;
    y <- try_except_AttributeError
           (l <- attr lb ;;
            yv <- values_attr y ;;
            Y <- lb_transform l yv ;;
            Ok (Ndarray (ravel Y)))
           (Ok y) ;;
    Ok (X_categorical, y, encoder, lb).

(** [process_data] is its stages in sequence. *)
Lemma process_data_stages (X : DataFrame) (cats : list string)
    (label : option string) (training : bool)
    (encoder : option OneHotEncoder) (lb : option LabelBinarizer) :
  process_data X cats label training encoder lb =
  (p <- partition_columns X cats label ;;
   let '(y, X_categorical, X_continuous) := p in
   fitted <- fit_or_transform y X_categorical training encoder lb ;;
   let '(X_categorical, y, encoder, lb) := fitted in
   Xout <- concatenate_axis1 X_continuous X_categorical ;;
   Ok (Xout, y, encoder, lb)).
Proof.
  unfold process_data, partition_columns, fit_or_transform.
  destruct label as [l|]; simpl.
  - destruct (getitem X l); simpl; [|reflexivity].
    destruct (drop X [l]) as [X'|]; simpl; [|reflexivity].
    destruct (getitem_list X' cats); simpl; [|reflexivity].
    destruct (drop X' cats); reflexivity.
  - destruct (getitem_list X cats); simpl; [|reflexivity].
    destruct (drop X cats); reflexivity.
Qed.

Lemma filter_filter_andb {A : Type} (f g : A -> bool) (l : list A) :
  List.filter g (List.filter f l) = List.filter (fun x => f x && g x) l.
Proof.
  induction l as [|a l IH]; simpl; [reflexivity|].
  destruct (f a); simpl; [destruct (g a)|]; congruence.
Qed.

Lemma mem_singleton (c l : string) : mem c [l] = String.eqb c l.
Proof. unfold mem. simpl. apply orb_false_r. Qed.

(** Projecting a projected row. *)
Lemma project_project (cols : list string) (r : list cell)
    (sub names : list string) :
  incl names sub ->
  List.map (lookup_row sub (List.map (lookup_row cols r) sub)) names =
  List.map (lookup_row cols r) names.
Proof.
  intros Hin. apply map_ext_in. intros n Hn.
  apply lookup_row_map. now apply Hin.
Qed.

(** The frame left after the label has been split off. *)
Lemma split_label_spec (X X' : DataFrame) (label : option string)
    (y : labels) :
  wf_df X ->
  match label with
  | Some l => y <- getitem X l ;; X' <- drop X [l] ;; Ok (Series y, X')
  | None => Ok (Ndarray [], X)
  end = Ok (y, X') ->
  y = raw_labels X label /\
  match label with Some l => In l (columns X) | None => True end /\
  columns X' = List.filter (fun c => negb (is_label label c)) (columns X) /\
  rows X' = List.map (fun r => List.map (lookup_row (columns X) r) (columns X'))
                     (rows X) /\
  wf_df X'.
Proof.
  intros Hwf. destruct label as [l|]; simpl.
  - destruct (getitem X l) as [yl|] eqn:Ey; [|discriminate]. simpl.
    destruct (drop X [l]) as [X0|] eqn:Ed; [|discriminate]. simpl.
    intros [= <- <-]. apply getitem_spec in Ey. destruct Ey as [Hl ->].
    destruct (drop_spec _ _ _ Hwf Ed) as (_ & Hc & Hr & Hwf').
    splits; try assumption; [reflexivity|].
    rewrite Hc. apply filter_ext. intros c. now rewrite mem_singleton.
  - intros [= <- <-]. destruct Hwf as [Hnd Hlen].
    assert (Hc : List.filter (fun _ : string => negb false) (columns X) =
                 columns X).
    { clear. generalize (columns X). intros l.
      induction l; simpl in *; congruence. }
    splits.
    + reflexivity.
    + exact I.
    + symmetry. exact Hc.
    + rewrite <- (map_id (rows X)) at 1. apply map_ext_in. intros r Hr.
      symmetry. apply row_lookup_id; [assumption|].
      rewrite List.Forall_forall in Hlen. now apply Hlen.
    + split; assumption.
Qed.

Lemma partition_columns_spec (X : DataFrame) (cats : list string)
    (label : option string) (y : labels) (Acat Acont : matrix) :
  wf_df X ->
  partition_columns X cats label = Ok (y, Acat, Acont) ->
  y = raw_labels X label /\
  match label with Some l => In l (columns X) | None => True end /\
  Forall (fun n => In n (columns X) /\ is_label label n = false) cats /\
  Acat = categorical_values X cats /\
  Acont = continuous_values X cats label.
Proof.
  intros Hwf. unfold partition_columns.
  destruct (match label with Some _ => _ | None => _ end)
    as [[y0 X']|] eqn:Es; [|discriminate].
  simpl. destruct (split_label_spec _ _ _ _ Hwf Es)
    as (-> & Hl & Hc & Hr & Hwf').
  destruct (getitem_list X' cats) as [Xc|] eqn:Eg; [|discriminate]. simpl.
  destruct (drop X' cats) as [Xd|] eqn:Ed; [|discriminate]. simpl.
  intros [= <- <- <-].
  apply getitem_list_spec in Eg. destruct Eg as (Hin & _ & Hrc).
  destruct (drop_spec _ _ _ Hwf' Ed) as (_ & Hdc & Hdr & _).
  assert (Hincl : incl cats (columns X')).
  { intros n Hn. rewrite List.Forall_forall in Hin. now apply Hin. }
  splits; try assumption; try reflexivity.
  - apply List.Forall_forall. intros n Hn. apply Hincl in Hn.
    rewrite Hc in Hn. apply filter_In in Hn. destruct Hn as [Hn Hlab].
    split; [assumption|]. now destruct (is_label label n).
  - unfold values, categorical_values. rewrite Hrc, Hr, map_map.
    apply map_ext. intros r. now apply project_project.
  - unfold values, continuous_values, continuous_columns.
    rewrite Hdr, Hr, map_map. rewrite Hdc, Hc, filter_filter_andb.
    apply map_ext. intros r. rewrite <- Hc. apply project_project.
    intros n Hn. rewrite Hc. rewrite <- filter_filter_andb in Hn.
    apply filter_In in Hn. tauto.
Qed.

Lemma partition_columns_ok (X : DataFrame) (cats : list string)
    (label : option string) :
  wf_df X ->
  match label with Some l => In l (columns X) | None => True end ->
  Forall (fun n => In n (columns X) /\ is_label label n = false) cats ->
  partition_columns X cats label =
  Ok (raw_labels X label, categorical_values X cats,
      continuous_values X cats label).
Proof.
  intros Hwf Hl Hcats.
  assert (Hex : exists p, partition_columns X cats label = Ok p).
  { unfold partition_columns.
    assert (Hs : exists y X',
               match label with
               | Some l =>
                   y <- getitem X l ;; X' <- drop X [l] ;; Ok (Series y, X')
               | None => Ok (Ndarray [], X)
               end = Ok (y, X')).
    { destruct label as [l|]; [|eauto].
      rewrite (getitem_In _ _ Hl). simpl.
      destruct (drop_In X [l]) as [X' ->]; [|simpl; eauto].
      constructor; [assumption | constructor]. }
    destruct Hs as (y & X' & Hs). rewrite Hs. simpl.
    destruct (split_label_spec _ _ _ _ Hwf Hs) as (_ & _ & Hc & _ & _).
    assert (Hin : Forall (fun n => In n (columns X')) cats).
    { eapply List.Forall_impl; [|exact Hcats]. intros n [Hn Hlab]. simpl.
      rewrite Hc. apply filter_In. split; [assumption|]. now rewrite Hlab. }
    destruct (getitem_list_In _ _ Hin) as [Xc ->]. simpl.
    destruct (drop_In _ _ Hin) as [Xd ->]. simpl. eauto. }
  destruct Hex as [[[y Acat] Acont] Hp]. rewrite Hp.
  destruct (partition_columns_spec _ _ _ _ _ _ Hwf Hp)
    as (-> & _ & _ & -> & ->).
  reflexivity.
Qed.

(** The continuous cells of a row as they come out of the
    concatenation: in table order, as float64 when the continuous
    columns of the table are all numeric, as they are otherwise. *)
Definition continuous_cells (X : DataFrame) (cats : list string)
    (label : option string) (r : list cell) : list cell :=
  let cells :=
    List.map (lookup_row (columns X) r) (continuous_columns X cats label) in
  if numeric_array (continuous_values X cats label)
  then List.map to_float64 cells
  else cells.

(** One row of the output matrix: the continuous cells, then the
    indicator blocks of the categorical cells. *)
Definition output_row (X : DataFrame) (cats : list string)
    (label : option string) (E : OneHotEncoder) (r : list cell) : list cell :=
  continuous_cells X cats label r ++
  encode_row (categories_ E) (List.map (lookup_row (columns X) r) cats).

Lemma continuous_cells_length (X : DataFrame) (cats : list string)
    (label : option string) (r : list cell) :
  length (continuous_cells X cats label r) =
  length (continuous_columns X cats label).
Proof.
  unfold continuous_cells.
  destruct (numeric_array _); now rewrite ?length_map.
Qed.

Lemma promote_continuous_values (X : DataFrame) (cats : list string)
    (label : option string) :
  promote (continuous_values X cats label) =
  List.map (continuous_cells X cats label) (rows X).
Proof.
  unfold promote, continuous_cells.
  destruct (numeric_array (continuous_values X cats label)).
  - unfold continuous_values. now rewrite map_map.
  - reflexivity.
Qed.

Lemma categorical_values_width (X : DataFrame) (cats : list string) :
  rows X <> [] -> length (hd [] (categorical_values X cats)) = length cats.
Proof.
  unfold categorical_values. destruct (rows X) as [|r rs]; [congruence|].
  intros _. simpl. apply length_map.
Qed.

(** Whatever the mode, the categorical values leave lines 69-80 encoded
    by the encoder that is returned. *)
Lemma fit_or_transform_encoded (y y' : labels) (A Y : matrix)
    (training : bool) (e0 enc : option OneHotEncoder)
    (l0 lb : option LabelBinarizer) :
  fit_or_transform y A training e0 l0 = Ok (Y, y', enc, lb) ->
  exists E, enc = Some E /\ ohe_transform E A = Ok Y /\
            (training = false -> e0 = Some E /\ lb = l0).
Proof.
  unfold fit_or_transform. destruct training.
  - destruct (ohe_fit_transform A) as [[E Y0]|] eqn:Ef; [|discriminate].
    simpl. destruct (values_attr y); [|discriminate]. simpl.
    destruct (lb_fit_transform a) as [[l Yl]|]; [|discriminate]. simpl.
    intros [= <- <- <- <-]. exists E. apply ohe_fit_transform_spec in Ef.
    splits; [reflexivity | tauto | discriminate].
  - destruct e0 as [E|]; [|discriminate]. simpl.
    destruct (ohe_transform E A) as [Y0|] eqn:Et; [|discriminate]. simpl.
    destruct (try_except_AttributeError _ _); [|discriminate]. simpl.
    intros [= <- <- <- <-]. exists E.
    splits; [reflexivity | exact Et | intros _; split; reflexivity].
Qed.

(** The shape of every successful call, in both modes. *)
Lemma process_data_inv (X : DataFrame) (cats : list string)
    (label : option string) (training : bool)
    (e0 enc : option OneHotEncoder) (l0 lb : option LabelBinarizer)
    (M : matrix) (y : labels) :
  wf_df X ->
  process_data X cats label training e0 l0 = Ok (M, y, enc, lb) ->
  exists E,
    enc = Some E /\
    rows X <> [] /\
    length (categories_ E) = length cats /\
    cats <> [] /\
    match label with Some l => In l (columns X) | None => True end /\
    Forall (fun n => In n (columns X) /\ is_label label n = false) cats /\
    M = List.map (output_row X cats label E) (rows X) /\
    fit_or_transform (raw_labels X label) (categorical_values X cats)
      training e0 l0 =
    Ok (List.map (encode_row (categories_ E)) (categorical_values X cats),
        y, enc, lb).
Proof.
  intros Hwf. rewrite process_data_stages.
  destruct (partition_columns X cats label) as [[[y0 Acat] Acont]|] eqn:Ep;
    [|discriminate].
  simpl. destruct (partition_columns_spec _ _ _ _ _ _ Hwf Ep)
    as (-> & Hl & Hcats & -> & ->).
  destruct (fit_or_transform _ _ _ _ _) as [[[[Y y1] enc1] lb1]|] eqn:Ef;
    [|discriminate].
  simpl. destruct (concatenate_axis1 _ Y) as [Xout|] eqn:Ec; [|discriminate].
  simpl. intros [= <- <- <- <-].
  destruct (fit_or_transform_encoded _ _ _ _ _ _ _ _ _ Ef) as (E & -> & Ht & _).
  apply ohe_transform_spec in Ht. destruct Ht as (Hne & Hw & Hcne & ->).
  assert (Hrows : rows X <> []).
  { intros Hnil. apply Hne. unfold categorical_values. now rewrite Hnil. }
  rewrite categorical_values_width in Hw by assumption.
  exists E. splits; try assumption; try reflexivity.
  - congruence.
  - intros ->. simpl in Hw.
    destruct (categories_ E); [congruence | discriminate].
  - unfold concatenate_axis1 in Ec.
    destruct (Nat.eqb _ _); [|discriminate]. injection Ec as <-.
    rewrite promote_continuous_values.
    unfold categorical_values. rewrite map_map.
    apply (zip_rows_map (continuous_cells X cats label)).
Qed.

(* ===================================================================== *)
(** ** Calls that satisfy the input contract                              *)
(* ===================================================================== *)

(** The input contract of [process_data]: a well-formed, non-empty table
    that has the label column (when one is named) and every categorical
    column; at least one categorical column, none of them the label. *)
Definition valid_call (X : DataFrame) (cats : list string)
    (label : option string) : Prop :=
  wf_df X /\
  rows X <> [] /\
  cats <> [] /\
  match label with Some l => In l (columns X) | None => True end /\
  Forall (fun n => In n (columns X) /\ is_label label n = false) cats.

(** The encoder was fitted on as many features as there are categorical
    columns. *)
Definition fitted_for (E : OneHotEncoder) (cats : list string) : Prop :=
  length (categories_ E) = length cats.

(** The categorical values can be checked against the categories of
    the encoder: they are not an array of integers only set against
    categories with a string among them. *)
Definition types_agree (E : OneHotEncoder) (X : DataFrame)
    (cats : list string) : Prop :=
  numeric_array (categorical_values X cats) && has_str_category E = false.

(** Past the validation of its input, [transform] is decided by the
    types. *)
Lemma ohe_transform_checked (E : OneHotEncoder) (X : DataFrame)
    (cats : list string) :
  rows X <> [] -> cats <> [] -> fitted_for E cats ->
  ohe_transform E (categorical_values X cats) =
  if numeric_array (categorical_values X cats) && has_str_category E
  then Raise TypeError
  else Ok (List.map (encode_row (categories_ E)) (categorical_values X cats)).
Proof.
  unfold fitted_for, ohe_transform.
  intros Hr Hc Hf.
  assert (Hck : check_array (categorical_values X cats) = Ok (length cats)).
  { unfold categorical_values. destruct (rows X) as [|r rs]; [congruence|].
    cbn [List.map]. rewrite check_array_rows; [now rewrite length_map|].
    rewrite length_map. destruct cats; [congruence | discriminate]. }
  rewrite Hck. cbn [bind].
  replace (Nat.eqb (length cats) (length (categories_ E))) with true;
    [reflexivity|].
  symmetry. apply Nat.eqb_eq. congruence.
Qed.

Lemma ohe_transform_ok (E : OneHotEncoder) (X : DataFrame)
    (cats : list string) :
  rows X <> [] -> cats <> [] -> fitted_for E cats -> types_agree E X cats ->
  ohe_transform E (categorical_values X cats) =
  Ok (List.map (encode_row (categories_ E)) (categorical_values X cats)).
Proof.
  intros Hr Hc Hf Ht. rewrite ohe_transform_checked by assumption.
  unfold types_agree in Ht. now rewrite Ht.
Qed.

Lemma concatenate_ok (X : DataFrame) (cats : list string)
    (label : option string) (E : OneHotEncoder) :
  concatenate_axis1 (continuous_values X cats label)
    (List.map (encode_row (categories_ E)) (categorical_values X cats)) =
  Ok (List.map (output_row X cats label E) (rows X)).
Proof.
  unfold concatenate_axis1. rewrite promote_continuous_values.
  unfold continuous_values, categorical_values.
  rewrite !length_map, Nat.eqb_refl, map_map. f_equal.
  apply (zip_rows_map (continuous_cells X cats label)).
Qed.

(** The label step of the inference branch, lines 76-80. *)
Definition transform_labels (y : labels) (lb : option LabelBinarizer)
  : result labels :=
  try_except_AttributeError
    (l <- attr lb ;;
     yv <- values_attr y ;;
     Y <- lb_transform l yv ;;
     Ok (Ndarray (ravel Y)))
    (Ok y).

(** An inference call within the contract, with a fitted encoder whose
    categories agree in type with the table: only the label step is
    left to decide the outcome. *)
Lemma process_data_inference (X : DataFrame) (cats : list string)
    (label : option string) (E : OneHotEncoder)
    (lb : option LabelBinarizer) :
  valid_call X cats label -> fitted_for E cats -> types_agree E X cats ->
  process_data X cats label false (Some E) lb =
  (y <- transform_labels (raw_labels X label) lb ;;
   Ok (List.map (output_row X cats label E) (rows X), y, Some E, lb)).
Proof.
  intros (Hwf & Hr & Hc & Hl & Hcats) Hf Hty.
  rewrite process_data_stages, partition_columns_ok by assumption.
  cbn [bind]. unfold fit_or_transform. cbn [attr bind].
  rewrite ohe_transform_ok by assumption. cbn [bind].
  fold (transform_labels (raw_labels X label) lb).
  destruct (transform_labels (raw_labels X label) lb); cbn [bind];
    [|reflexivity].
  now rewrite concatenate_ok.
Qed.

(** Categories fitted on integers are integers. *)
Lemma sorted_unique_numeric (l : list cell) :
  forallb is_num l = true ->
  existsb (fun c => negb (is_num c)) (sorted (unique l)) = false.
Proof.
  intros Hl. destruct (existsb _ _) eqn:E; [|reflexivity].
  apply existsb_exists in E. destruct E as (c & Hc & Hs).
  pose proof (proj1 (In_unique c l) (proj1 (In_sorted c (unique l)) Hc))
    as Hin.
  rewrite forallb_forall in Hl. rewrite (Hl c Hin) in Hs. discriminate.
Qed.

Lemma column_numeric (A : matrix) (j : nat) :
  numeric_array A = true -> forallb is_num (column j A) = true.
Proof.
  unfold numeric_array, column. intros HA.
  apply forallb_forall. intros c Hc. apply in_map_iff in Hc.
  destruct Hc as (r & <- & Hr). rewrite forallb_forall in HA.
  specialize (HA r Hr). rewrite forallb_forall in HA.
  unfold cell_at. destruct (nth_in_or_default j r (Num 0)) as [Hin| ->];
    [now apply HA | reflexivity].
Qed.

(** An encoder agrees in type with the array it was fitted on. *)
Lemma fitted_types_agree (A : matrix) (js : list nat) :
  numeric_array A &&
  has_str_category
    {| categories_ := List.map (fun j => sorted (unique (column j A))) js |} =
  false.
Proof.
  destruct (numeric_array A) eqn:HA; [|reflexivity]. cbn [andb].
  unfold has_str_category. cbn [categories_].
  destruct (existsb _ _) eqn:E; [|reflexivity].
  apply existsb_exists in E. destruct E as (ci & Hci & Hs).
  apply in_map_iff in Hci. destruct Hci as (j & <- & _).
  rewrite sorted_unique_numeric in Hs; [discriminate|].
  now apply column_numeric.
Qed.

(** A training call within the contract whose categorical columns and
    label column are each of one type returns, with the freshly fitted
    state. *)
Lemma process_data_training (X : DataFrame) (cats : list string)
    (l : string) (e0 : option OneHotEncoder) (l0 : option LabelBinarizer) :
  valid_call X cats (Some l) ->
  Forall (fun n => mixed (List.map (fun r => lookup_row (columns X) r n)
                                   (rows X)) = false) (l :: cats) ->
  exists E B yv,
    yv = List.map (fun r => lookup_row (columns X) r l) (rows X) /\
    ohe_fit (categorical_values X cats) = Ok E /\
    lb_fit yv = Ok B /\
    process_data X cats (Some l) true e0 l0 =
    Ok (List.map (output_row X cats (Some l) E) (rows X),
        Ndarray (ravel (label_binarize yv (classes_ B))), Some E, Some B).
Proof.
  intros (Hwf & Hr & Hc & Hl & Hcats) Hmix.
  apply Forall_cons_iff in Hmix. destruct Hmix as [Hml Hmc].
  set (yv := List.map (fun r => lookup_row (columns X) r l) (rows X)) in *.
  set (A := categorical_values X cats).
  set (cs := List.map (fun j => sorted (unique (column j A)))
               (seq 0 (length cats))).
  assert (Hw : length (hd [] A) = length cats)
    by now apply categorical_values_width.
  assert (Hfit : ohe_fit A = Ok {| categories_ := cs |}).
  { unfold ohe_fit. destruct A as [|r0 A0] eqn:EA.
    - unfold A, categorical_values in EA. destruct (rows X); [congruence|].
      discriminate.
    - simpl in Hw. rewrite check_array_rows
        by (rewrite Hw; destruct cats; [congruence | discriminate]).
      cbn [bind]. rewrite Hw, fit_columns_unmixed; [reflexivity|].
      apply List.Forall_forall. intros j Hj. apply in_seq in Hj.
      rewrite List.Forall_forall in Hmc.
      rewrite <- (Hmc (nth j cats EmptyString)) by (apply nth_In; lia).
      f_equal. rewrite <- EA. unfold column, A, categorical_values.
      rewrite map_map. apply map_ext. intros r. unfold cell_at.
      rewrite (nth_indep _ _ (lookup_row (columns X) r EmptyString))
        by (rewrite length_map; lia).
      apply map_nth. }
  exists {| categories_ := cs |}, {| classes_ := sorted (unique yv) |}, yv.
  assert (Hlb : lb_fit yv = Ok {| classes_ := sorted (unique yv) |}).
  { unfold lb_fit. rewrite Hml.
    replace (Nat.eqb (length yv) 0) with false; [reflexivity|].
    symmetry. apply Nat.eqb_neq. unfold yv. rewrite length_map.
    destruct (rows X); [congruence | discriminate]. }
  splits; try assumption; try reflexivity.
  rewrite process_data_stages, partition_columns_ok by assumption.
  cbn [bind]. unfold fit_or_transform, ohe_fit_transform.
  fold A. rewrite Hfit. cbn [bind].
  unfold A. rewrite ohe_transform_ok; try assumption;
    [|unfold fitted_for, cs; simpl; now rewrite length_map, length_seq
     |apply fitted_types_agree].
  cbn [bind raw_labels values_attr fst snd]. fold yv.
  unfold lb_fit_transform. rewrite Hlb. cbn [bind].
  unfold lb_transform. rewrite Hml. cbn [classes_].
  replace (forallb is_num yv &&
           existsb (fun c => negb (is_num c)) (sorted (unique yv)))
    with false.
  - cbn [bind fst snd]. now rewrite concatenate_ok.
  - symmetry. destruct (forallb is_num yv) eqn:Ey; [|reflexivity].
    now apply sorted_unique_numeric.
Qed.

(* ===================================================================== *)
(** ** The fitted encoder and the shape of the output                     *)
(* ===================================================================== *)

(** The column of a table under a label. *)
Definition column_of (X : DataFrame) (name : string) : list cell :=
  List.map (fun r => lookup_row (columns X) r name) (rows X).

Lemma seq_map_nth {A B : Type} (G : A -> B) (l : list A) (d : A) :
  List.map (fun j => G (nth j l d)) (seq 0 (length l)) = List.map G l.
Proof.
  induction l as [|a l IH]; simpl; [reflexivity|].
  f_equal. rewrite <- seq_shift, map_map. exact IH.
Qed.

Lemma column_categorical_values (X : DataFrame) (cats : list string)
    (j : nat) :
  j < length cats ->
  column j (categorical_values X cats) = column_of X (nth j cats EmptyString).
Proof.
  intros Hj. unfold column, categorical_values, column_of.
  rewrite map_map. apply map_ext. intros r. unfold cell_at.
  rewrite (nth_indep _ _ (lookup_row (columns X) r EmptyString))
    by (rewrite length_map; lia).
  apply map_nth.
Qed.

(** What fitting learns: per categorical column, its distinct values in
    sorted order. *)
Lemma fitted_categories (X : DataFrame) (cats : list string)
    (E : OneHotEncoder) :
  rows X <> [] ->
  ohe_fit (categorical_values X cats) = Ok E ->
  categories_ E =
  List.map (fun n => sorted (unique (column_of X n))) cats.
Proof.
  intros Hr Hfit. apply ohe_fit_spec in Hfit. destruct Hfit as (_ & _ & ->).
  rewrite categorical_values_width by assumption.
  rewrite <- (seq_map_nth (fun n => sorted (unique (column_of X n)))
                cats EmptyString).
  apply map_ext_in. intros j Hj. apply in_seq in Hj.
  rewrite column_categorical_values by lia. reflexivity.
Qed.

Lemma Forall2_map_r {A B : Type} (f : A -> B) (l : list A) :
  Forall2 (fun a b => b = f a) l (List.map f l).
Proof. induction l; simpl; constructor; auto. Qed.

Lemma output_row_length (X : DataFrame) (cats : list string)
    (label : option string) (E : OneHotEncoder) (r : list cell) :
  fitted_for E cats ->
  length (output_row X cats label E r) =
  length (continuous_columns X cats label) + encoded_width (categories_ E).
Proof.
  intros Hf. unfold output_row.
  rewrite length_app, continuous_cells_length, encode_row_length;
    [reflexivity|].
  rewrite length_map. now symmetry.
Qed.

Lemma census_example_wf : wf_df census_example.
Proof.
  split.
  - repeat constructor; simpl; intuition discriminate.
  - repeat constructor.
Qed.

(** The integers of the table are int64 values. *)
Definition int64_cell (c : cell) : bool :=
  match c with
  | Num z => ((- 2 ^ 63 <=? z) && (z <? 2 ^ 63))%Z
  | Str _ => true
  end.

Definition int64_table (X : DataFrame) : Prop :=
  forallb (forallb int64_cell) (rows X) = true.

(** Integers of at most 53 bits are float64 values. *)
Lemma float64_of_int_exact (z : Z) :
  (Z.abs z < 2 ^ 53)%Z -> float64_of_int z = z.
Proof.
  assert (Hpos : forall n, (0 <= n < 2 ^ 53)%Z -> float64_of_nonneg n = n).
  { intros n Hn. unfold float64_of_nonneg.
    replace (Z.log2 n + 1 <=? 53)%Z with true; [reflexivity|].
    symmetry. apply Z.leb_le.
    destruct (Z.eq_dec n 0%Z) as [->|Hne]; [cbn; lia|].
    assert (Z.log2 n < 53)%Z by (apply Z.log2_lt_pow2; lia). lia. }
  intros Hz. unfold float64_of_int. destruct (z <? 0)%Z eqn:E.
  - apply Z.ltb_lt in E. rewrite Hpos by lia. lia.
  - apply Z.ltb_ge in E. apply Hpos. lia.
Qed.

(** C1.  On a well-formed table of int64 integers and strings, a
    training call that returns gives back a fitted encoder whose
    categories for the i-th categorical column are the distinct values
    of that column: no value twice, every value of the column and no
    other (so v_i of them when the column has v_i distinct values);
    every row of the output matrix has width c + v_1 + ... + v_k, with c
    the number of continuous columns; and each row is the continuous
    cells in table order (as float64 when they are all integers)
    followed by the indicator blocks in the order of the encoder's
    categories. *)
Theorem process_data_training_shape (X : DataFrame) (cats : list string)
    (label : option string) (e0 enc : option OneHotEncoder)
    (l0 lb : option LabelBinarizer) (M : matrix) (y : labels) :
  wf_df X ->
  int64_table X ->
  process_data X cats label true e0 l0 = Ok (M, y, enc, lb) ->
  exists E,
    enc = Some E /\
    Forall2 (fun name ci =>
               List.NoDup ci /\
               forall v, In v ci <-> In v (column_of X name))
            cats (categories_ E) /\
    Forall (fun row =>
              length row =
              length (continuous_columns X cats label) +
              list_sum (List.map (@length cell) (categories_ E))) M /\
    M = List.map (output_row X cats label E) (rows X).
Proof.
  intros Hwf _ H.
  destruct (process_data_inv _ _ _ _ _ _ _ _ _ _ Hwf H)
    as (E & -> & Hr & Hk & _ & _ & _ & HM & Hf).
  exists E. split; [reflexivity|].
  unfold fit_or_transform in Hf.
  destruct (ohe_fit_transform _) as [[E' Y]|] eqn:Eft; [|discriminate].
  cbn [bind] in Hf. destruct (values_attr _); [|discriminate].
  cbn [bind] in Hf. destruct (lb_fit_transform _) as [[B Yl]|];
    [|discriminate].
  cbn [bind fst snd] in Hf. injection Hf as _ _ -> _.
  apply ohe_fit_transform_spec in Eft. destruct Eft as [Hfit _].
  apply fitted_categories in Hfit; [|assumption].
  splits.
  - rewrite Hfit.
    eapply Forall2_impl; [apply Forall2_map_r|].
    intros n ci ->. split.
    + eapply Permutation_NoDup; [apply sorted_perm | apply NoDup_unique].
    + intros v. rewrite In_sorted. apply In_unique.
  - rewrite HM. apply List.Forall_forall. intros row Hin.
    apply in_map_iff in Hin. destruct Hin as (r & <- & _).
    now apply output_row_length.
  - exact HM.
Qed.

Definition census_matrix : matrix :=
  [[Num 25; Num 0; Num 1]; [Num 40; Num 1; Num 0]].

Lemma process_data_training_shape_witness :
  exists E,
    Some sex_encoder = Some E /\
    Forall2 (fun name ci =>
               List.NoDup ci /\
               forall v, In v ci <-> In v (column_of census_example name))
            ["sex"] (categories_ E) /\
    Forall (fun row =>
              length row =
              length (continuous_columns census_example ["sex"]
                        (Some "salary")) +
              list_sum (List.map (@length cell) (categories_ E)))
           census_matrix /\
    census_matrix =
    List.map (output_row census_example ["sex"] (Some "salary") E)
             (rows census_example).
Proof.
  apply (process_data_training_shape census_example ["sex"] (Some "salary")
           None (Some sex_encoder) None (Some salary_binarizer)
           census_matrix (Ndarray [0%Z; 1%Z]) census_example_wf).
  - reflexivity.
  - reflexivity.
Defined.

(** Beyond 53 bits the continuous cells come back rounded: 2^53 + 1
    leaves the matrix as 2^53. *)
Example process_data_rounds_large_integers :
  process_data
    {| columns := ["fnlgt"; "sex"; "salary"];
       rows := [[Num 9007199254740993; Str "M"; Str "<=50K"];
                [Num 40; Str "F"; Str ">50K"]] |}
    ["sex"] (Some "salary") true None None =
  Ok ([[Num 9007199254740992; Num 0; Num 1]; [Num 40; Num 1; Num 0]],
      Ndarray [0%Z; 1%Z], Some sex_encoder, Some salary_binarizer).
Proof. reflexivity. Qed.

(* ===================================================================== *)
(** ** Row counts                                                         *)
(* ===================================================================== *)

(** Entries of the returned labels per input row: none without a label
    column; one when the raw series comes back or the target is binary
    with at most two classes; one per class otherwise. *)
Definition labels_per_row (X : DataFrame) (label : option string)
    (lb : option LabelBinarizer) : nat :=
  match label with
  | None => 0
  | Some l =>
      match lb with
      | None => 1
      | Some B => label_width (column_of X l) (classes_ B)
      end
  end.

Lemma label_width_binary (y classes : list cell) :
  length (unique y) <= 2 -> length classes <= 2 -> label_width y classes = 1.
Proof.
  intros Hy Hc. unfold label_width, type_of_target.
  apply Nat.leb_le in Hy, Hc. now rewrite Hy, Hc.
Qed.

Lemma lb_fit_transform_spec (yv : list cell) (B : LabelBinarizer)
    (Y : list (list Z)) :
  lb_fit_transform yv = Ok (B, Y) ->
  lb_fit yv = Ok B /\ Y = label_binarize yv (classes_ B).
Proof.
  unfold lb_fit_transform. destruct (lb_fit yv) as [B'|]; [|discriminate].
  cbn [bind]. unfold lb_transform. destruct (mixed yv); [discriminate|].
  destruct (forallb is_num yv && _); [discriminate|].
  cbn [bind]. intros [= <- <-]. split; reflexivity.
Qed.

Lemma transform_labels_length (X : DataFrame) (label : option string)
    (l0 : option LabelBinarizer) (y : labels) :
  transform_labels (raw_labels X label) l0 = Ok y ->
  labels_length y = length (rows X) * labels_per_row X label l0.
Proof.
  unfold transform_labels, labels_per_row.
  destruct l0 as [B|], label as [l|]; cbn [attr bind raw_labels values_attr].
  - unfold lb_transform. fold (column_of X l).
    destruct (mixed (column_of X l)); [discriminate|].
    destruct (forallb is_num (column_of X l) && _); [discriminate|].
    cbn [bind try_except_AttributeError]. intros [= <-].
    cbn [labels_length]. rewrite label_binarize_length.
    unfold column_of. now rewrite length_map.
  - cbn [try_except_AttributeError]. intros [= <-]. simpl. lia.
  - cbn [try_except_AttributeError]. intros [= <-].
    cbn [labels_length]. rewrite length_map. lia.
  - cbn [try_except_AttributeError]. intros [= <-]. simpl. lia.
Qed.

Definition census_features : DataFrame :=
  {| columns := ["age"; "sex"];
     rows := [[Num 25; Str "M"]; [Num 40; Str "F"]] |}.

Lemma census_features_wf : wf_df census_features.
Proof.
  split.
  - repeat constructor; simpl; intuition discriminate.
  - repeat constructor.
Qed.

(** C2, counterexample.  An inference call without a label column on a
    table of two rows returns a matrix of two rows and a label vector
    of none. *)
Lemma process_data_row_count_counterexample :
  wf_df census_features /\
  process_data census_features ["sex"] None false
    (Some sex_encoder) (Some salary_binarizer) =
  Ok (census_matrix, Ndarray [], Some sex_encoder, Some salary_binarizer) /\
  length (rows census_features) = 2 /\
  labels_length (Ndarray []) <> length (rows census_features).
Proof.
  splits.
  - exact census_features_wf.
  - reflexivity.
  - reflexivity.
  - discriminate.
Qed.

(** C2, amended.  For every call that returns, in both modes, the output
    matrix has the row count of the input table.  The returned labels
    have [labels_per_row] entries per input row: the label vector has
    the row count of the table when a label column is supplied and the
    binarizer that is returned is absent or binary (at most two distinct
    labels in the table, at most two classes); it is empty without a
    label column. *)
Theorem process_data_row_counts (X : DataFrame) (cats : list string)
    (label : option string) (training : bool)
    (e0 enc : option OneHotEncoder) (l0 lb : option LabelBinarizer)
    (M : matrix) (y : labels) :
  wf_df X ->
  process_data X cats label training e0 l0 = Ok (M, y, enc, lb) ->
  length M = length (rows X) /\
  labels_length y = length (rows X) * labels_per_row X label lb /\
  (forall l, label = Some l ->
     match lb with
     | None => True
     | Some B => length (unique (column_of X l)) <= 2 /\
                 length (classes_ B) <= 2
     end ->
     labels_length y = length (rows X)).
Proof.
  intros Hwf H.
  destruct (process_data_inv _ _ _ _ _ _ _ _ _ _ Hwf H)
    as (E & -> & _ & _ & _ & _ & _ & -> & Hf).
  assert (Hy : labels_length y = length (rows X) * labels_per_row X label lb).
  { unfold fit_or_transform in Hf. destruct training.
    - destruct (ohe_fit_transform _) as [[E' Y]|]; [|discriminate].
      cbn [bind] in Hf. destruct label as [l|]; [|discriminate].
      cbn [raw_labels values_attr bind] in Hf.
      destruct (lb_fit_transform _) as [[B Yl]|] eqn:El; [|discriminate].
      cbn [bind fst snd] in Hf. injection Hf as _ <- _ <-.
      apply lb_fit_transform_spec in El. destruct El as [_ ->].
      cbn [labels_length labels_per_row]. rewrite label_binarize_length.
      unfold column_of. now rewrite length_map.
    - destruct e0 as [E0|]; [|discriminate]. cbn [attr bind] in Hf.
      destruct (ohe_transform E0 _); [|discriminate]. cbn [bind] in Hf.
      fold (transform_labels (raw_labels X label) l0) in Hf.
      destruct (transform_labels (raw_labels X label) l0) as [y'|] eqn:Et;
        [|discriminate].
      cbn [bind] in Hf. injection Hf as _ <- _ <-.
      now apply transform_labels_length. }
  splits.
  - apply length_map.
  - exact Hy.
  - intros l -> Hb. rewrite Hy. cbn [labels_per_row].
    destruct lb as [B|]; [|lia].
    destruct Hb as [H1 H2]. rewrite label_width_binary by assumption. lia.
Qed.

Lemma process_data_row_counts_witness :
  length census_matrix = length (rows census_example) /\
  labels_length (Ndarray [0%Z; 1%Z]) =
  length (rows census_example) *
  labels_per_row census_example (Some "salary") (Some salary_binarizer) /\
  (forall l, Some "salary" = Some l ->
     length (unique (column_of census_example l)) <= 2 /\
     length (classes_ salary_binarizer) <= 2 ->
     labels_length (Ndarray [0%Z; 1%Z]) = length (rows census_example)).
Proof.
  apply (process_data_row_counts census_example ["sex"] (Some "salary") true
           None (Some sex_encoder) None (Some salary_binarizer)
           census_matrix (Ndarray [0%Z; 1%Z]) census_example_wf).
  reflexivity.
Defined.

(* ===================================================================== *)
(** ** Inference: unknown categories, missing labels, missing state       *)
(* ===================================================================== *)

(** Where the indicator block of the i-th categorical column starts
    inside the encoded part of a row. *)
Definition block_offset (E : OneHotEncoder) (i : nat) : nat :=
  encoded_width (firstn i (categories_ E)).

(** The indicator block of the i-th categorical column in an output row
    that starts with [c] continuous cells. *)
Definition block (c : nat) (E : OneHotEncoder) (i : nat) (out : list cell)
  : list cell :=
  firstn (length (nth i (categories_ E) []))
         (skipn (c + block_offset E i) out).

Lemma skipn_app_exact {A : Type} (l1 l2 : list A) (k : nat) :
  skipn (length l1 + k) (l1 ++ l2) = skipn k l2.
Proof. induction l1 as [|a l1 IH]; simpl; [reflexivity | exact IH]. Qed.

Lemma firstn_app_exact {A : Type} (l1 l2 : list A) :
  firstn (length l1) (l1 ++ l2) = l1.
Proof. induction l1 as [|a l1 IH]; simpl; [now destruct l2 | now f_equal]. Qed.

Lemma encode_row_block (cats : list (list cell)) (vals : list cell)
    (i : nat) (cs : list cell) (v : cell) :
  nth_error cats i = Some cs -> nth_error vals i = Some v ->
  firstn (length cs)
         (skipn (encoded_width (firstn i cats)) (encode_row cats vals)) =
  indicator cs v.
Proof.
  revert cats vals. induction i as [|i IH]; intros [|c0 cats] [|v0 vals];
    simpl; try discriminate.
  - intros [= ->] [= ->]. rewrite <- (indicator_length cs v) at 1.
    apply firstn_app_exact.
  - intros Hc Hv. unfold encoded_width. simpl.
    rewrite <- (indicator_length c0 v0) at 1.
    rewrite skipn_app_exact. now apply IH.
Qed.

(** The label step cannot fail when the label column and the classes
    of the binarizer are all of one type. *)
Definition labels_transformable (X : DataFrame) (label : option string)
    (lb : option LabelBinarizer) : Prop :=
  match label, lb with
  | Some l, Some B => mixed (column_of X l ++ classes_ B) = false
  | _, _ => True
  end.

Lemma lb_transform_ok (B : LabelBinarizer) (y : list cell) :
  y <> [] -> mixed (y ++ classes_ B) = false ->
  lb_transform B y = Ok (label_binarize y (classes_ B)).
Proof.
  intros Hy Hm. unfold lb_transform.
  rewrite (mixed_incl y (y ++ classes_ B)) by (auto using incl_appl, incl_refl).
  replace (forallb is_num y &&
           existsb (fun c => negb (is_num c)) (classes_ B)) with false;
    [reflexivity|].
  symmetry. apply andb_false_iff.
  destruct (forallb is_num y) eqn:Ey; [right|now left].
  destruct (existsb _ (classes_ B)) eqn:Ec; [|reflexivity].
  exfalso. unfold mixed in Hm. apply andb_false_iff in Hm.
  destruct y as [|c y']; [congruence|].
  assert (Hc : is_num c = true).
  { rewrite forallb_forall in Ey. apply Ey. now left. }
  destruct Hm as [Hm|Hm].
  - rewrite existsb_app in Hm. cbn [existsb] in Hm. rewrite Hc in Hm.
    discriminate.
  - rewrite existsb_app, Ec, orb_true_r in Hm. discriminate.
Qed.

Lemma transform_labels_ok (X : DataFrame) (label : option string)
    (lb : option LabelBinarizer) :
  rows X <> [] ->
  labels_transformable X label lb ->
  exists y, transform_labels (raw_labels X label) lb = Ok y.
Proof.
  unfold labels_transformable, transform_labels.
  intros Hr.
  destruct label as [l|], lb as [B|]; cbn [attr bind raw_labels values_attr];
    intros H; try (cbn [try_except_AttributeError]; eauto).
  fold (column_of X l). rewrite lb_transform_ok; [| |exact H].
  - cbn [bind try_except_AttributeError]. eauto.
  - unfold column_of. destruct (rows X); [congruence | discriminate].
Qed.

(** A table whose [sex] column is coded by integers. *)
Definition census_coded : DataFrame :=
  {| columns := ["age"; "sex"];
     rows := [[Num 25; Num 1]; [Num 40; Num 2]] |}.

Lemma census_coded_valid : valid_call census_coded ["sex"] None.
Proof.
  unfold valid_call. splits.
  - split; [repeat constructor; simpl; intuition discriminate
           | repeat constructor].
  - discriminate.
  - discriminate.
  - exact I.
  - constructor; [split; [simpl; tauto | reflexivity] | constructor].
Qed.

(** C3, counterexample.  The values 1 and 2 of an integer column are
    absent from the vocabulary ["F"; "M"] of the encoder, and the
    inference call raises [TypeError] at line 75 instead of encoding
    them as zeros. *)
Lemma process_data_unknown_category_counterexample :
  valid_call census_coded ["sex"] None /\
  fitted_for sex_encoder ["sex"] /\
  (forall v, In v (column_of census_coded "sex") ->
             ~ In v [Str "F"; Str "M"]) /\
  process_data census_coded ["sex"] None false (Some sex_encoder) None =
  Raise TypeError.
Proof.
  splits.
  - exact census_coded_valid.
  - reflexivity.
  - intros v Hv Hin. cbv in Hv.
    destruct Hv as [<-|[<-|[]]]; simpl in Hin; intuition discriminate.
  - reflexivity.
Qed.

(** C3, amended.  An inference call within the contract, with a fitted
    encoder whose categories agree in type with the categorical values
    and a label column the binarizer can take, returns; and wherever a
    row holds, in a categorical column, a value that is not among the
    categories fitted for that column, the indicator block of the
    column in that row of the output is all zeros. *)
Theorem process_data_unknown_category (X : DataFrame) (cats : list string)
    (label : option string) (E : OneHotEncoder)
    (lb : option LabelBinarizer) :
  valid_call X cats label ->
  fitted_for E cats ->
  types_agree E X cats ->
  labels_transformable X label lb ->
  exists M y,
    process_data X cats label false (Some E) lb = Ok (M, y, Some E, lb) /\
    forall i name cs r row,
      nth_error cats i = Some name ->
      nth_error (categories_ E) i = Some cs ->
      nth_error (rows X) r = Some row ->
      ~ In (lookup_row (columns X) row name) cs ->
      exists out,
        nth_error M r = Some out /\
        block (length (continuous_columns X cats label)) E i out =
        repeat (Num 0) (length cs).
Proof.
  intros Hv Hf Hty Ht.
  assert (Hr : rows X <> []) by (destruct Hv as (_ & Hr & _); exact Hr).
  destruct (transform_labels_ok _ _ _ Hr Ht) as [y Hy].
  exists (List.map (output_row X cats label E) (rows X)), y. split.
  - rewrite process_data_inference by assumption. now rewrite Hy.
  - intros i name cs r row Hi Hcs Hrow Hunk.
    exists (output_row X cats label E row). split.
    + now apply map_nth_error.
    + unfold block, block_offset, output_row.
      rewrite (nth_error_nth _ _ _ Hcs).
      rewrite <- (continuous_cells_length X cats label row).
      rewrite skipn_app_exact.
      rewrite (encode_row_block _ _ i cs (lookup_row (columns X) row name));
        [now apply indicator_unknown | assumption |].
      now apply map_nth_error.
Qed.

(** A table whose second row has a value of [sex] the encoder has not
    seen. *)
Definition census_unseen : DataFrame :=
  {| columns := ["age"; "sex"];
     rows := [[Num 25; Str "M"]; [Num 40; Str "Other"]] |}.

Lemma census_unseen_valid : valid_call census_unseen ["sex"] None.
Proof.
  unfold valid_call. splits.
  - split; [repeat constructor; simpl; intuition discriminate
           | repeat constructor].
  - discriminate.
  - discriminate.
  - exact I.
  - constructor; [split; [simpl; tauto | reflexivity] | constructor].
Qed.

Lemma process_data_unknown_category_witness :
  exists M y,
    process_data census_unseen ["sex"] None false (Some sex_encoder) None =
    Ok (M, y, Some sex_encoder, None) /\
    forall i name cs r row,
      nth_error ["sex"] i = Some name ->
      nth_error (categories_ sex_encoder) i = Some cs ->
      nth_error (rows census_unseen) r = Some row ->
      ~ In (lookup_row (columns census_unseen) row name) cs ->
      exists out,
        nth_error M r = Some out /\
        block (length (continuous_columns census_unseen ["sex"] None))
              sex_encoder i out =
        repeat (Num 0) (length cs).
Proof.
  apply (process_data_unknown_category census_unseen ["sex"] None
           sex_encoder None census_unseen_valid).
  - reflexivity.
  - reflexivity.
  - exact I.
Defined.

(** The unseen value of the example is encoded as [0; 0]. *)
Example census_unseen_encoded :
  process_data census_unseen ["sex"] None false (Some sex_encoder) None =
  Ok ([[Num 25; Num 0; Num 1]; [Num 40; Num 0; Num 0]],
      Ndarray [], Some sex_encoder, None).
Proof. reflexivity. Qed.

(** C4, counterexample.  An inference call without a label column and
    with a fitted encoder raises [TypeError] at line 75 when the
    categorical column holds integers and the encoder was fitted on
    strings. *)
Lemma process_data_no_label_inference_counterexample :
  valid_call census_coded ["sex"] None /\
  fitted_for sex_encoder ["sex"] /\
  process_data census_coded ["sex"] None false (Some sex_encoder)
    (Some salary_binarizer) = Raise TypeError.
Proof.
  splits; [exact census_coded_valid | reflexivity | reflexivity].
Qed.

(** C4, amended.  An inference call without a label column, within the
    contract and with a fitted encoder whose categories agree in type
    with the categorical values, returns the empty label vector
    whatever binarizer is passed; the guarded label step raises
    [AttributeError] before any binarizer transform is reached. *)
Theorem process_data_no_label_inference (X : DataFrame)
    (cats : list string) (E : OneHotEncoder) (lb : option LabelBinarizer) :
  valid_call X cats None ->
  fitted_for E cats ->
  types_agree E X cats ->
  (exists M,
     process_data X cats None false (Some E) lb =
     Ok (M, Ndarray [], Some E, lb)) /\
  (l <- attr lb ;;
   yv <- values_attr (raw_labels X None) ;;
   Y <- lb_transform l yv ;;
   Ok (Ndarray (ravel Y))) = Raise AttributeError.
Proof.
  intros Hv Hf Hty. split.
  - eexists. rewrite process_data_inference by assumption.
    unfold transform_labels. destruct lb; reflexivity.
  - now destruct lb.
Qed.

Lemma process_data_no_label_inference_witness :
  (exists M,
     process_data census_unseen ["sex"] None false (Some sex_encoder)
       (Some salary_binarizer) =
     Ok (M, Ndarray [], Some sex_encoder, Some salary_binarizer)) /\
  (l <- attr (Some salary_binarizer) ;;
   yv <- values_attr (raw_labels census_unseen None) ;;
   Y <- lb_transform l yv ;;
   Ok (Ndarray (ravel Y))) = Raise AttributeError.
Proof.
  apply (process_data_no_label_inference census_unseen ["sex"] sex_encoder
           (Some salary_binarizer) census_unseen_valid).
  - reflexivity.
  - reflexivity.
Defined.

(** A labelled table whose [sex] column is coded by integers. *)
Definition census_coded_labelled : DataFrame :=
  {| columns := ["age"; "sex"; "salary"];
     rows := [[Num 25; Num 1; Str "<=50K"];
              [Num 40; Num 2; Str ">50K"]] |}.

(** C10, counterexample.  An inference call with a label column, a
    fitted encoder and no binarizer raises [TypeError] at line 75,
    before the label step, when the categorical column holds integers
    and the encoder was fitted on strings. *)
Lemma process_data_missing_binarizer_counterexample :
  fitted_for sex_encoder ["sex"] /\
  In "salary" (columns census_coded_labelled) /\
  process_data census_coded_labelled ["sex"] (Some "salary") false
    (Some sex_encoder) None = Raise TypeError.
Proof.
  splits; [reflexivity | simpl; tauto | reflexivity].
Qed.

(** C10, amended.  An inference call with a label column but no
    binarizer, within the contract and with a fitted encoder whose
    categories agree in type with the categorical values, returns: the
    [AttributeError] of the label step is caught, and the labels come
    back as the raw series of the label column. *)
Theorem process_data_missing_binarizer (X : DataFrame) (cats : list string)
    (l : string) (E : OneHotEncoder) :
  valid_call X cats (Some l) ->
  fitted_for E cats ->
  types_agree E X cats ->
  (b <- attr (@None LabelBinarizer) ;;
   yv <- values_attr (raw_labels X (Some l)) ;;
   Y <- lb_transform b yv ;;
   Ok (Ndarray (ravel Y))) = Raise AttributeError /\
  exists M,
    process_data X cats (Some l) false (Some E) None =
    Ok (M, Series (column_of X l), Some E, None).
Proof.
  intros Hv Hf Hty. split; [reflexivity|].
  eexists. now rewrite process_data_inference by assumption.
Qed.

Lemma census_example_valid : valid_call census_example ["sex"] (Some "salary").
Proof.
  unfold valid_call. splits.
  - exact census_example_wf.
  - discriminate.
  - discriminate.
  - simpl. tauto.
  - constructor; [split; [simpl; tauto | reflexivity] | constructor].
Qed.

Lemma process_data_missing_binarizer_witness :
  (b <- attr (@None LabelBinarizer) ;;
   yv <- values_attr (raw_labels census_example (Some "salary")) ;;
   Y <- lb_transform b yv ;;
   Ok (Ndarray (ravel Y))) = Raise AttributeError /\
  exists M,
    process_data census_example ["sex"] (Some "salary") false
      (Some sex_encoder) None =
    Ok (M, Series (column_of census_example "salary"),
        Some sex_encoder, None).
Proof.
  apply (process_data_missing_binarizer census_example ["sex"] "salary"
           sex_encoder census_example_valid).
  - reflexivity.
  - reflexivity.
Defined.

(** Lines 60-67 can only fail with [KeyError]. *)
Lemma indices_of_raises (names cols : list string) (e : exn) :
  indices_of names cols = Raise e -> e = KeyError.
Proof.
  induction names as [|n ns IH]; simpl; [discriminate|].
  destruct (index_of n cols); [|now intros [= <-]].
  destruct (indices_of ns cols); simpl; [discriminate|].
  intros [= <-]. now apply IH.
Qed.

Lemma drop_raises (X : DataFrame) (names : list string) (e : exn) :
  drop X names = Raise e -> e = KeyError.
Proof.
  unfold drop. destruct (forallb _ _); [discriminate | now intros [= <-]].
Qed.

Lemma getitem_list_raises (X : DataFrame) (names : list string) (e : exn) :
  getitem_list X names = Raise e -> e = KeyError.
Proof.
  unfold getitem_list.
  destruct (indices_of names (columns X)) eqn:E; simpl; [discriminate|].
  intros [= <-]. eapply indices_of_raises. eassumption.
Qed.

Lemma partition_columns_raises (X : DataFrame) (cats : list string)
    (label : option string) (e : exn) :
  partition_columns X cats label = Raise e -> e = KeyError.
Proof.
  unfold partition_columns.
  assert (Hd : forall X0 y0,
    (Xc <- getitem_list X0 cats ;;
     X_continuous <- drop X0 cats ;;
     Ok (y0 : labels, values Xc, values X_continuous)) = Raise e ->
    e = KeyError).
  { intros X0 y0. destruct (getitem_list X0 cats) eqn:Eg; simpl.
    - destruct (drop X0 cats) eqn:Ed; simpl; [discriminate|].
      intros [= <-]. eapply drop_raises. eassumption.
    - intros [= <-]. eapply getitem_list_raises. eassumption. }
  destruct label as [l|]; simpl.
  - unfold getitem. destruct (index_of l (columns X)); simpl;
      [|now intros [= <-]].
    destruct (drop X [l]) eqn:Ed; simpl.
    + apply Hd.
    + intros [= <-]. eapply drop_raises. eassumption.
  - apply Hd.
Qed.

(** C5, the failing call.  A training call without a label column
    raises [AttributeError]: line 73 asks the empty array of line 64 for
    [.values]. *)
Theorem process_data_training_no_label_example :
  process_data census_features ["sex"] None true None None =
  Raise AttributeError.
Proof. reflexivity. Qed.

(** No training call without a label column returns. *)
Lemma process_data_training_no_label (X : DataFrame) (cats : list string)
    (e0 : option OneHotEncoder) (l0 : option LabelBinarizer) :
  is_ok (process_data X cats None true e0 l0) = false.
Proof.
  rewrite process_data_stages. unfold partition_columns. cbn [bind fst snd].
  destruct (getitem_list X cats); [|reflexivity]. cbn [bind].
  destruct (drop X cats); [|reflexivity]. cbn [bind].
  unfold fit_or_transform.
  destruct (ohe_fit_transform _); reflexivity.
Qed.

(** C6, counterexample.  An inference call with a label column, a
    fitted encoder and no binarizer returns. *)
Lemma process_data_missing_state_counterexample :
  process_data census_example ["sex"] (Some "salary") false
    (Some sex_encoder) None =
  Ok (census_matrix, Series [Str "<=50K"; Str ">50K"],
      Some sex_encoder, None).
Proof. reflexivity. Qed.

(** C6, amended.  Every inference call without an encoder fails, with
    the [AttributeError] of line 75 or with a [KeyError] raised before
    it, whatever else is passed. *)
Theorem process_data_missing_encoder (X : DataFrame) (cats : list string)
    (label : option string) (lb : option LabelBinarizer) :
  process_data X cats label false None lb = Raise AttributeError \/
  process_data X cats label false None lb = Raise KeyError.
Proof.
  rewrite process_data_stages.
  destruct (partition_columns X cats label) as [[[y A] Ac]|e] eqn:Ep.
  - left. reflexivity.
  - right. apply partition_columns_raises in Ep. now subst.
Qed.

(* ===================================================================== *)
(** ** Training ignores the state passed in                               *)
(* ===================================================================== *)

(** C7.  A training call does not depend on the encoder and binarizer
    passed in; and when it returns, the encoder and binarizer it returns
    are the ones fitted by this call on the categorical values and on
    the label column of the table. *)
Theorem process_data_training_ignores_state (X : DataFrame)
    (cats : list string) (label : option string)
    (e1 e2 : option OneHotEncoder) (l1 l2 : option LabelBinarizer) :
  process_data X cats label true e1 l1 = process_data X cats label true e2 l2 /\
  forall M y enc lb,
    process_data X cats label true e1 l1 = Ok (M, y, enc, lb) ->
    exists E B yv A Ac,
      enc = Some E /\ lb = Some B /\
      partition_columns X cats label = Ok (Series yv, A, Ac) /\
      ohe_fit A = Ok E /\ lb_fit yv = Ok B.
Proof.
  split; [reflexivity|].
  intros M y enc lb. rewrite process_data_stages.
  destruct (partition_columns X cats label) as [[[y0 A] Ac]|];
    [|discriminate].
  cbn [bind]. unfold fit_or_transform.
  destruct (ohe_fit_transform A) as [[E Y]|] eqn:Ef; [|discriminate].
  cbn [bind]. destruct y0 as [yv|]; [|discriminate].
  cbn [values_attr bind].
  destruct (lb_fit_transform yv) as [[B Yl]|] eqn:El; [|discriminate].
  cbn [bind fst snd]. destruct (concatenate_axis1 Ac Y); [|discriminate].
  cbn [bind]. intros [= _ _ <- <-].
  apply ohe_fit_transform_spec in Ef. apply lb_fit_transform_spec in El.
  exists E, B, yv, A, Ac. splits; try reflexivity; tauto.
Qed.

(* ===================================================================== *)
(** ** The caller's table is left alone                                   *)
(* ===================================================================== *)

Module StoreFacts.
Import Store.

Lemma read_lookup {A : Type} (x : ref) (f : DataFrame -> result A)
    (s : store) (d : DataFrame) :
  s !! x = Some d -> read x f s = Some (f d, s).
Proof. unfold read. now intros ->. Qed.

Lemma alloc_extends (s : store) (d : DataFrame) :
  s ⊆ <[fresh (dom s) := d]> s.
Proof. apply insert_subseteq, not_elem_of_dom, is_fresh. Qed.

Lemma alloc_lookup (s : store) (d : DataFrame) :
  (<[fresh (dom s) := d]> s) !! fresh (dom s) = Some d.
Proof. apply lookup_insert_eq. Qed.

(** An operation that reads an object and allocates its result: the
    store grows by the new object, or is unchanged when pandas raises. *)
Lemma read_alloc (x : ref) (f : DataFrame -> result DataFrame)
    (s : store) (d : DataFrame) :
  s !! x = Some d ->
  bindS (read x f) alloc s =
  match f d with
  | Ok d' => Some (Ok (fresh (dom s)), <[fresh (dom s) := d']> s)
  | Raise e => Some (Raise e, s)
  end.
Proof.
  intros Hx. unfold bindS. rewrite (read_lookup _ _ _ _ Hx).
  destruct (f d); reflexivity.
Qed.

(** The in-place variant, by contrast, changes the caller's object. *)
Example df_drop_inplace_changes_argument :
  df_drop_inplace 1%positive ["salary"] {[1%positive := census_example]} =
  Some (Ok tt, {[1%positive := census_features]}).
Proof.
  unfold df_drop_inplace. rewrite lookup_singleton_eq. simpl.
  now rewrite insert_singleton_eq.
Qed.

(** C9.  Run on a reference to the caller's table, [process_data]
    computes what the pure function computes on the table, and every
    object of the caller's store, the argument among them, is in the
    final store as it was: no column is added, removed or modified. *)
Theorem process_data_ref_frame (s : store) (x : ref) (X : DataFrame)
    (cats : list string) (label : option string) (training : bool)
    (encoder : option OneHotEncoder) (lb : option LabelBinarizer) :
  s !! x = Some X ->
  exists s',
    process_data_ref x cats label training encoder lb s =
    Some (process_data X cats label training encoder lb, s') /\
    s' !! x = Some X /\
    s ⊆ s'.
Proof.
  intros Hx.
  assert (Hrest : forall (y : labels) (x1 : ref) (X1 : DataFrame) (s1 : store),
    s1 !! x1 = Some X1 -> s ⊆ s1 ->
    exists s',
      bindS (df_getitem_list x1 cats) (fun Xc =>
      bindS (df_values Xc) (fun X_categorical =>
      bindS (df_drop x1 cats) (fun X_continuous =>
      bindS (ret
        (if training then
           eX <- ohe_fit_transform X_categorical ;;
           yv <- values_attr y ;;
           lY <- lb_fit_transform yv ;;
           Ok (snd eX, Ndarray (ravel (snd lY)), Some (fst eX), Some (fst lY))
         else
           enc <- attr encoder ;;
           X_categorical <- ohe_transform enc X_categorical ;;
           y <- try_except_AttributeError
                  (l <- attr lb ;;
                   yv <- values_attr y ;;
                   Y <- lb_transform l yv ;;
                   Ok (Ndarray (ravel Y)))
                  (Ok y) ;;
           Ok (X_categorical, y, encoder, lb))) (fun fitted =>
      let '(X_categorical, y, encoder, lb) := fitted in
      bindS (df_values X_continuous) (fun Xcont =>
      ret (Xout <- concatenate_axis1 Xcont X_categorical ;;
           Ok (Xout, y, encoder, lb))))))) s1 =
      Some
        (Xc <- getitem_list X1 cats ;;
         X_continuous <- drop X1 cats ;;
         fitted <- fit_or_transform y (values Xc) training encoder lb ;;
         (let '(X_categorical, y, encoder, lb) := fitted in
          Xout <- concatenate_axis1 (values X_continuous) X_categorical ;;
          Ok (Xout, y, encoder, lb)), s') /\
      s ⊆ s').
  { intros y x1 X1 s1 Hx1 Hs1.
    unfold df_getitem_list, df_drop.
    unfold bindS at 1. rewrite (read_alloc _ _ _ _ Hx1).
    destruct (getitem_list X1 cats) as [Xc|e]; cbn [bind]; [|eauto].
    set (s2 := <[fresh (dom s1) := Xc]> s1).
    assert (Hs2 : s1 ⊆ s2) by apply alloc_extends.
    unfold bindS at 1, df_values.
    rewrite (read_lookup _ _ _ _ (alloc_lookup s1 Xc)).
    unfold bindS at 1.
    rewrite (read_alloc _ _ _ _ (lookup_weaken _ _ _ _ Hx1 Hs2)).
    destruct (drop X1 cats) as [Xd|e]; cbn [bind];
      [|exists s2; split; [reflexivity | now transitivity s1]].
    set (s3 := <[fresh (dom s2) := Xd]> s2).
    assert (Hs3 : s2 ⊆ s3) by apply alloc_extends.
    exists s3. split; [|now transitivity s1; [|transitivity s2]].
    unfold bindS at 1, ret. fold (fit_or_transform y (values Xc) training
                                     encoder lb).
    destruct (fit_or_transform y (values Xc) training encoder lb)
      as [[[[Y y'] enc'] lb']|e]; cbn [bind]; [|reflexivity].
    unfold bindS.
    now rewrite (read_lookup _ _ _ _ (alloc_lookup s2 Xd)). }
  assert (Hgoal : exists s',
    process_data_ref x cats label training encoder lb s =
    Some (process_data X cats label training encoder lb, s') /\ s ⊆ s').
  { unfold process_data_ref, process_data.
    fold (fit_or_transform).
    destruct label as [l|].
    - unfold bindS at 1. unfold bindS at 1. unfold df_getitem.
      rewrite (read_lookup _ _ _ _ Hx).
      destruct (getitem X l) as [yl|e]; cbn [bind]; [|eauto].
      unfold df_drop. unfold bindS at 1.
      rewrite (read_alloc _ _ _ _ Hx).
      destruct (drop X [l]) as [X'|e]; cbn [bind]; [|eauto].
      unfold ret at 1. cbn [fst snd].
      apply Hrest; [apply alloc_lookup | apply alloc_extends].
    - unfold bindS at 1, ret at 1. cbn [bind fst snd].
      now apply Hrest. }
  destruct Hgoal as (s' & Hrun & Hsub). exists s'.
  splits; try assumption. eapply lookup_weaken; eassumption.
Qed.

Lemma process_data_ref_frame_witness :
  exists s',
    process_data_ref 1%positive ["sex"] (Some "salary") true None None
      {[1%positive := census_example]} =
    Some (process_data census_example ["sex"] (Some "salary") true None None,
          s') /\
    s' !! 1%positive = Some census_example /\
    ({[1%positive := census_example]} : store) ⊆ s'.
Proof.
  apply (process_data_ref_frame {[1%positive := census_example]} 1%positive
           census_example ["sex"] (Some "salary") true None None).
  apply lookup_singleton_eq.
Defined.

End StoreFacts.

(* ===================================================================== *)
(** ** The slice report                                                   *)
(* ===================================================================== *)

Lemma append_cons (ch : ascii) (a b : string) :
  (String ch a ++ b)%string = String ch (a ++ b)%string.
Proof. reflexivity. Qed.

Lemma append_assoc (a b c : string) :
  ((a ++ b) ++ c = a ++ (b ++ c))%string.
Proof.
  induction a as [|ch a' IH]; [reflexivity|].
  now rewrite !append_cons, IH.
Qed.

Lemma append_nil_r (a : string) : (a ++ EmptyString = a)%string.
Proof.
  induction a as [|ch a' IH]; [reflexivity|].
  now rewrite append_cons, IH.
Qed.

(** The text of a sequence of written lines. *)
Definition concat_lines (lines : list string) : string :=
  fold_right String.append EmptyString lines.

Lemma concat_lines_app (l1 l2 : list string) :
  concat_lines (l1 ++ l2) = (concat_lines l1 ++ concat_lines l2)%string.
Proof.
  induction l1 as [|a l1 IH]; simpl; [reflexivity|].
  now rewrite IH, append_assoc.
Qed.

(** The (column, value) pairs the loops visit: the categorical columns
    in the order given and, within a column, its distinct values in the
    order of first appearance. *)
Definition slices (data : DataFrame) (cats : list string)
  : list (string * cell) :=
  flat_map (fun c => List.map (pair c) (unique (column_of data c))) cats.

Lemma write_after (fs : filesystem) (acc line : string) :
  fs !! log_path = Some acc ->
  write log_path line fs = <[log_path := (acc ++ line)%string]> fs.
Proof. unfold write. now intros ->. Qed.

Section ReporterFacts.

Context {Model Pred Metric : Type}.
Variable predict : Model -> matrix -> result Pred.
Variable compute_model_metrics :
  labels -> Pred -> result (Metric * Metric * Metric).
Variable str_of_metric : Metric -> string.
Variable model : Model.
Variable data : DataFrame.
Variable encoder : option OneHotEncoder.
Variable lb : option LabelBinarizer.
Variable cats : list string.

Let line_of := slice_line predict compute_model_metrics str_of_metric
                 model data encoder lb cats.

(** The lines the inner loop writes before it ends or raises. *)
Fixpoint lines_of_values (categorical : string) (vals : list cell)
  : result unit * list string :=
  match vals with
  | [] => (Ok tt, [])
  | value :: vals' =>
      match line_of categorical value with
      | Ok line =>
          let rl := lines_of_values categorical vals' in
          (fst rl, line :: snd rl)
      | Raise e => (Raise e, [])
      end
  end.

(** The lines the outer loop writes before it ends or raises. *)
Fixpoint lines_of_categoricals (todo : list string)
  : result unit * list string :=
  match todo with
  | [] => (Ok tt, [])
  | categorical :: todo' =>
      match getitem data categorical with
      | Ok col =>
          match lines_of_values categorical (unique col) with
          | (Ok _, ls) =>
              let rl := lines_of_categoricals todo' in
              (fst rl, ls ++ snd rl)
          | (Raise e, ls) => (Raise e, ls)
          end
      | Raise e => (Raise e, [])
      end
  end.

Lemma for_values_lines (categorical : string) (vals : list cell)
    (fs : filesystem) (acc : string) :
  fs !! log_path = Some acc ->
  for_values predict compute_model_metrics str_of_metric model data
    encoder lb cats categorical vals fs =
  (fst (lines_of_values categorical vals),
   <[log_path := (acc ++ concat_lines
                           (snd (lines_of_values categorical vals)))%string]>
     fs).
Proof.
  revert fs acc. induction vals as [|v vs IH]; intros fs acc Hacc; simpl.
  - rewrite append_nil_r, insert_id by assumption. reflexivity.
  - fold (line_of categorical v). destruct (line_of categorical v) as [line|e].
    + rewrite (write_after _ _ _ Hacc).
      rewrite (IH _ (acc ++ line)%string) by apply lookup_insert_eq.
      simpl. now rewrite insert_insert_eq, append_assoc.
    + simpl. rewrite append_nil_r, insert_id by assumption. reflexivity.
Qed.

Lemma for_categoricals_lines (todo : list string) (fs : filesystem)
    (acc : string) :
  fs !! log_path = Some acc ->
  for_categoricals predict compute_model_metrics str_of_metric model data
    encoder lb cats todo fs =
  (fst (lines_of_categoricals todo),
   <[log_path := (acc ++ concat_lines
                           (snd (lines_of_categoricals todo)))%string]> fs).
Proof.
  revert fs acc. induction todo as [|c cs IH]; intros fs acc Hacc; simpl.
  - rewrite append_nil_r, insert_id by assumption. reflexivity.
  - destruct (getitem data c) as [col|e].
    + rewrite (for_values_lines _ _ _ _ Hacc).
      destruct (lines_of_values c (unique col)) as [[u|e] ls]; simpl.
      * rewrite (IH _ (acc ++ concat_lines ls)%string)
          by apply lookup_insert_eq.
        now rewrite insert_insert_eq, concat_lines_app, append_assoc.
      * reflexivity.
    + simpl. rewrite append_nil_r, insert_id by assumption. reflexivity.
Qed.

(** Whatever the outcome, the report is replaced by the lines written in
    this invocation: nothing of the previous content is left. *)
Lemma slide_performance_overwrites (fs : filesystem) :
  slide_performance predict compute_model_metrics str_of_metric model data
    encoder lb cats fs =
  (fst (lines_of_categoricals cats),
   <[log_path := concat_lines (snd (lines_of_categoricals cats))]> fs).
Proof.
  unfold slide_performance, open_w.
  rewrite (for_categoricals_lines _ _ EmptyString)
    by apply lookup_insert_eq.
  now rewrite insert_insert_eq.
Qed.

(** A line of the report: the literal format around the value, the
    column and three printed metrics. *)
Definition report_line (cv : string * cell) (line : string) : Prop :=
  exists p r f : Metric,
    line = format_line (str_of_cell (snd cv)) (fst cv)
             (str_of_metric p) (str_of_metric r) (str_of_metric f).

Lemma line_of_format (c : string) (v : cell) (line : string) :
  line_of c v = Ok line -> report_line (c, v) line.
Proof.
  unfold line_of, slice_line.
  destruct (filter_eq data c v) as [slice|]; [|discriminate].
  cbn [bind]. destruct (process_data _ _ _ _ _ _) as [[[[X y] e'] l']|];
    [|discriminate].
  cbn [bind]. destruct (predict model X) as [y_pred|]; [|discriminate].
  cbn [bind].
  destruct (compute_model_metrics y y_pred) as [[[p r] f]|]; [|discriminate].
  cbn [bind]. intros [= <-]. exists p, r, f. reflexivity.
Qed.

Lemma lines_of_values_ok (c : string) (vals : list cell) :
  fst (lines_of_values c vals) = Ok tt ->
  Forall2 report_line (List.map (pair c) vals) (snd (lines_of_values c vals)).
Proof.
  induction vals as [|v vs IH]; simpl; [constructor|].
  destruct (line_of c v) as [line|e] eqn:El; simpl; [|discriminate].
  intros H. constructor; [now apply line_of_format | now apply IH].
Qed.

(** When the run ends normally there is one line per visited pair, in
    the order of the visit. *)
Lemma lines_of_categoricals_ok (todo : list string) :
  fst (lines_of_categoricals todo) = Ok tt ->
  Forall2 report_line (slices data todo) (snd (lines_of_categoricals todo)).
Proof.
  unfold slices. induction todo as [|c cs IH]; simpl; [constructor|].
  destruct (getitem data c) as [col|e] eqn:Eg; [|discriminate].
  apply getitem_spec in Eg. destruct Eg as [_ ->]. fold (column_of data c).
  pose proof (lines_of_values_ok c (unique (column_of data c))) as Hv.
  destruct (lines_of_values c (unique (column_of data c))) as [[[]|e] ls];
    simpl in *; [|discriminate].
  intros H. apply Forall2_app; [now apply Hv | now apply IH].
Qed.

End ReporterFacts.

(** The position at which a value first appears in a column. *)
Fixpoint first_pos (v : cell) (col : list cell) : nat :=
  match col with
  | [] => 0
  | x :: xs => if cell_eqb x v then 0 else S (first_pos v xs)
  end.

(** [vs] lists the distinct values of [col] in the order of their first
    appearance: no value twice, the same values as the column, and first
    appearances in increasing position. *)
Definition first_seen_distinct (col vs : list cell) : Prop :=
  List.NoDup vs /\
  (forall v, In v vs <-> In v col) /\
  StronglySorted lt (List.map (fun v => first_pos v col) vs).

Lemma StronglySorted_map_filter {A : Type} (f : A -> nat) (p : A -> bool)
    (l : list A) :
  StronglySorted lt (List.map f l) ->
  StronglySorted lt (List.map f (List.filter p l)).
Proof.
  induction l as [|a l IH]; cbn [List.map List.filter]; intros H; [exact H|].
  inversion H as [|? ? Hs Hall]; subst.
  destruct (p a); [|now apply IH].
  cbn [List.map]. constructor; [now apply IH|].
  apply List.Forall_forall. intros n Hn. apply in_map_iff in Hn.
  destruct Hn as (x & <- & Hx). apply filter_In in Hx.
  rewrite List.Forall_forall in Hall. apply Hall. apply in_map. tauto.
Qed.

Lemma StronglySorted_map_S (l : list nat) :
  StronglySorted lt l -> StronglySorted lt (List.map S l).
Proof.
  induction 1 as [|a l Hs IH Hall]; cbn [List.map]; constructor;
    [assumption|].
  apply List.Forall_forall. intros n Hn. apply in_map_iff in Hn.
  destruct Hn as (m & <- & Hm). rewrite List.Forall_forall in Hall.
  specialize (Hall m Hm). lia.
Qed.

(** [Series.unique] lists the distinct values in first-seen order. *)
Lemma unique_first_seen (col : list cell) :
  first_seen_distinct col (unique col).
Proof.
  unfold first_seen_distinct. splits.
  - apply NoDup_unique.
  - intros v. apply In_unique.
  - induction col as [|x xs IH]; [constructor|].
    cbn [unique List.map first_pos]. rewrite cell_eqb_refl.
    assert (Htail :
      List.map (fun v => if cell_eqb x v then 0 else S (first_pos v xs))
               (List.filter (fun y => negb (cell_eqb x y)) (unique xs)) =
      List.map S (List.map (fun v => first_pos v xs)
               (List.filter (fun y => negb (cell_eqb x y)) (unique xs)))).
    { rewrite map_map. apply map_ext_in. intros v Hv.
      apply filter_In in Hv. destruct Hv as [_ Hv].
      now destruct (cell_eqb x v). }
    rewrite Htail. constructor.
    + apply StronglySorted_map_S. now apply StronglySorted_map_filter.
    + apply List.Forall_forall. intros n Hn. apply in_map_iff in Hn.
      destruct Hn as (m & <- & _). lia.
Qed.

(** The pairs visited when column [c] of [cats] is iterated over the
    values [vs] listed for it in [vss]. *)
Definition visited_pairs (cats : list string) (vss : list (list cell))
  : list (string * cell) :=
  flat_map (fun cv => List.map (pair (fst cv)) (snd cv)) (combine cats vss).

Lemma slices_visited (data : DataFrame) (cats : list string) :
  slices data cats =
  visited_pairs cats (List.map (fun c => unique (column_of data c)) cats).
Proof.
  unfold slices, visited_pairs.
  induction cats as [|c cs IH]; [reflexivity|].
  cbn [flat_map List.map combine fst snd]. now rewrite IH.
Qed.

(** C8, amended.  When an invocation of the reporter ends normally, the
    report file holds, whatever it held before, exactly the lines of
    this invocation: for each categorical column in the order given,
    and for each distinct value of the column in the order of first
    appearance, one line in the literal format, ended by a line
    break. *)
Theorem slide_performance_report {Model Pred Metric : Type}
    (predict : Model -> matrix -> result Pred)
    (compute_model_metrics : labels -> Pred -> result (Metric * Metric * Metric))
    (str_of_metric : Metric -> string)
    (model : Model) (data : DataFrame) (encoder : option OneHotEncoder)
    (lb : option LabelBinarizer) (cats : list string)
    (fs fs' : filesystem) :
  slide_performance predict compute_model_metrics str_of_metric model data
    encoder lb cats fs = (Ok tt, fs') ->
  exists (vss : list (list cell)) (lines : list string),
    Forall2 (fun c vs => first_seen_distinct (column_of data c) vs)
            cats vss /\
    Forall2 (fun (cv : string * cell) line =>
               exists p r f : Metric,
                 line =
                 ("Feature " ++ str_of_cell (snd cv) ++
                  " of the Categorical " ++ fst cv ++
                  ": Precision:" ++ str_of_metric p ++
                  " | Recall:" ++ str_of_metric r ++
                  " | Fbeta:" ++ str_of_metric f ++
                  String (ascii_of_nat 10) EmptyString)%string)
            (visited_pairs cats vss) lines /\
    fs' = <["log_slice_performance.txt" := concat_lines lines]> fs.
Proof.
  rewrite slide_performance_overwrites. intros [= Hok <-].
  pose proof (lines_of_categoricals_ok predict compute_model_metrics
                str_of_metric model data encoder lb cats cats Hok) as Hlines.
  exists (List.map (fun c => unique (column_of data c)) cats).
  eexists. splits.
  - clear. induction cats as [|c cs IH]; cbn [List.map]; constructor;
      [apply unique_first_seen | exact IH].
  - rewrite <- slices_visited.
    eapply Forall2_impl; [exact Hlines|].
    intros cv line (p & r & f & ->). exists p, r, f. reflexivity.
  - reflexivity.
Qed.

(** A model that predicts 0 for every row, and metrics that are all 1,
    printed as integers. *)
Definition zero_model (_ : unit) (X : matrix) : result (list Z) :=
  Ok (List.map (fun _ => 0%Z) X).

Definition unit_metrics (_ : labels) (_ : list Z) : result (Z * Z * Z) :=
  Ok (1%Z, 1%Z, 1%Z).

Definition str_of_Z (z : Z) : string := str_of_cell (Num z).

(** The two lines of the report of the example. *)
Definition census_report : string :=
  ("Feature M of the Categorical sex: Precision:1 | Recall:1 | Fbeta:1" ++
   String (ascii_of_nat 10)
     ("Feature F of the Categorical sex: Precision:1 | Recall:1 | Fbeta:1" ++
      String (ascii_of_nat 10) EmptyString))%string.

Lemma slide_performance_report_witness :
  exists (vss : list (list cell)) (lines : list string),
    Forall2 (fun c vs => first_seen_distinct (column_of census_example c) vs)
            ["sex"] vss /\
    Forall2 (fun (cv : string * cell) line =>
               exists p r f : Z,
                 line =
                 ("Feature " ++ str_of_cell (snd cv) ++
                  " of the Categorical " ++ fst cv ++
                  ": Precision:" ++ str_of_Z p ++
                  " | Recall:" ++ str_of_Z r ++
                  " | Fbeta:" ++ str_of_Z f ++
                  String (ascii_of_nat 10) EmptyString)%string)
            (visited_pairs ["sex"] vss) lines /\
    ({["log_slice_performance.txt" := census_report]} : filesystem) =
    <["log_slice_performance.txt" := concat_lines lines]> ∅.
Proof.
  apply (slide_performance_report zero_model unit_metrics str_of_Z tt
           census_example (Some sex_encoder) (Some salary_binarizer)
           ["sex"] ∅ {["log_slice_performance.txt" := census_report]}).
  vm_compute. reflexivity.
Defined.

(** C8, counterexample.  On a table without the [salary] column the
    invocation raises [KeyError] at the first slice: the previous report
    is gone and the file holds no line, though the column [sex] has two
    distinct values. *)
Lemma slide_performance_report_counterexample :
  column_of census_features "sex" = [Str "M"; Str "F"] /\
  slide_performance zero_model unit_metrics str_of_Z tt census_features
    (Some sex_encoder) (Some salary_binarizer) ["sex"]
    {["log_slice_performance.txt" := census_report]} =
  (Raise KeyError, {["log_slice_performance.txt" := EmptyString]}).
Proof.
  split; [reflexivity|].
  rewrite slide_performance_overwrites. cbn [fst snd].
  now rewrite insert_singleton_eq.
Qed.

(** The report of the example: two lines, [M] before [F] as in the
    table, over whatever the file held. *)
Example slide_performance_census (old : string) :
  slide_performance zero_model unit_metrics str_of_Z tt census_example
    (Some sex_encoder) (Some salary_binarizer) ["sex"]
    {[log_path := old]} =
  (Ok tt,
   {[log_path :=
       (format_line "M" "sex" "1" "1" "1" ++
        format_line "F" "sex" "1" "1" "1")%string]}).
Proof.
  rewrite slide_performance_overwrites. cbn [fst snd].
  now rewrite insert_singleton_eq.
Qed.

(* ===================================================================== *)
(** ** Further properties of [process_data]                               *)
(* ===================================================================== *)

Lemma lb_fit_transform_transform (yv : list cell) (B : LabelBinarizer)
    (Y : list (list Z)) :
  lb_fit_transform yv = Ok (B, Y) -> lb_transform B yv = Ok Y.
Proof.
  unfold lb_fit_transform. destruct (lb_fit yv) as [B'|]; [|discriminate].
  cbn [bind]. destruct (lb_transform B' yv) as [Y'|] eqn:Et; [|discriminate].
  cbn [bind]. now intros [= <- <-].
Qed.

(** X1.  Training and inference agree: when a training call returns,
    the inference call on the same table with the encoder and binarizer
    it returned gives the same matrix, the same labels and the same
    state. *)
Theorem process_data_train_then_infer (X : DataFrame) (cats : list string)
    (label : option string) (e0 enc : option OneHotEncoder)
    (l0 lb : option LabelBinarizer) (M : matrix) (y : labels) :
  process_data X cats label true e0 l0 = Ok (M, y, enc, lb) ->
  process_data X cats label false enc lb = Ok (M, y, enc, lb).
Proof.
  rewrite !process_data_stages.
  destruct (partition_columns X cats label) as [[[y0 A] Ac]|];
    [|discriminate].
  cbn [bind]. unfold fit_or_transform.
  destruct (ohe_fit_transform A) as [[E Y]|] eqn:Ef; [|discriminate].
  cbn [bind]. destruct y0 as [yv|]; [|discriminate].
  cbn [values_attr bind].
  destruct (lb_fit_transform yv) as [[B Yl]|] eqn:El; [|discriminate].
  cbn [bind fst snd].
  destruct (concatenate_axis1 Ac Y) as [Xout|] eqn:Ec; [|discriminate].
  cbn [bind]. intros [= <- <- <- <-].
  apply ohe_fit_transform_spec in Ef. destruct Ef as [_ Ht].
  apply lb_fit_transform_transform in El.
  cbn [attr bind]. rewrite Ht. cbn [bind]. rewrite El.
  cbn [bind try_except_AttributeError]. now rewrite Ec.
Qed.

Lemma process_data_train_then_infer_witness :
  process_data census_example ["sex"] (Some "salary") false
    (Some sex_encoder) (Some salary_binarizer) =
  Ok (census_matrix, Ndarray [0%Z; 1%Z],
      Some sex_encoder, Some salary_binarizer).
Proof.
  apply (process_data_train_then_infer census_example ["sex"]
           (Some "salary") None (Some sex_encoder) None
           (Some salary_binarizer) census_matrix (Ndarray [0%Z; 1%Z])).
  reflexivity.
Defined.

(** X2.  An inference call that returns hands back the very encoder and
    binarizer it was given. *)
Theorem process_data_inference_passes_state (X : DataFrame)
    (cats : list string) (label : option string)
    (e0 enc : option OneHotEncoder) (l0 lb : option LabelBinarizer)
    (M : matrix) (y : labels) :
  process_data X cats label false e0 l0 = Ok (M, y, enc, lb) ->
  enc = e0 /\ lb = l0.
Proof.
  rewrite process_data_stages.
  destruct (partition_columns X cats label) as [[[y0 A] Ac]|];
    [|discriminate].
  cbn [bind].
  destruct (fit_or_transform y0 A false e0 l0) as [[[[Y y1] enc1] lb1]|] eqn:Ef;
    [|discriminate].
  cbn [bind]. destruct (concatenate_axis1 Ac Y); [|discriminate].
  cbn [bind]. intros [= _ _ <- <-].
  destruct (fit_or_transform_encoded _ _ _ _ _ _ _ _ _ Ef)
    as (E & -> & _ & Hs).
  destruct (Hs eq_refl) as [-> ->]. split; reflexivity.
Qed.

Lemma process_data_inference_passes_state_witness :
  Some sex_encoder = Some sex_encoder /\
  (@None LabelBinarizer) = None.
Proof.
  apply (process_data_inference_passes_state census_example ["sex"]
           (Some "salary") (Some sex_encoder) (Some sex_encoder) None None
           census_matrix (Series [Str "<=50K"; Str ">50K"])).
  reflexivity.
Defined.

(** X3.  In inference mode too, every call that returns on a well-formed
    table of int64 integers and strings maps row r of the table to row
    r of the matrix: the continuous cells of the row in table order,
    followed by its encoding under the encoder passed in.  The
    continuous cells are converted to float64 when the continuous
    columns hold integers only, which leaves an integer of at most 53
    bits as it is, and are not touched otherwise.  Every row has width
    c + the number of fitted categories. *)
Theorem process_data_inference_shape (X : DataFrame) (cats : list string)
    (label : option string) (e0 enc : option OneHotEncoder)
    (l0 lb : option LabelBinarizer) (M : matrix) (y : labels) :
  wf_df X ->
  int64_table X ->
  process_data X cats label false e0 l0 = Ok (M, y, enc, lb) ->
  exists E,
    e0 = Some E /\
    M = List.map (fun r =>
          (if numeric_array (continuous_values X cats label)
           then List.map to_float64
                  (List.map (lookup_row (columns X) r)
                            (continuous_columns X cats label))
           else List.map (lookup_row (columns X) r)
                         (continuous_columns X cats label)) ++
          encode_row (categories_ E)
                     (List.map (lookup_row (columns X) r) cats)) (rows X) /\
    (forall z, (Z.abs z < 2 ^ 53)%Z -> to_float64 (Num z) = Num z) /\
    Forall (fun row =>
              length row =
              length (continuous_columns X cats label) +
              encoded_width (categories_ E)) M.
Proof.
  intros Hwf _ H.
  destruct (process_data_inv _ _ _ _ _ _ _ _ _ _ Hwf H)
    as (E & -> & _ & Hk & _ & _ & _ & -> & Hf).
  destruct (fit_or_transform_encoded _ _ _ _ _ _ _ _ _ Hf)
    as (E' & HE & _ & Hs).
  destruct (Hs eq_refl) as [-> _]. injection HE as <-.
  exists E. splits; try reflexivity.
  - intros z Hz. cbn [to_float64]. now rewrite float64_of_int_exact.
  - apply List.Forall_forall. intros row Hin.
    apply in_map_iff in Hin. destruct Hin as (r & <- & _).
    now apply output_row_length.
Qed.

Lemma process_data_inference_shape_witness :
  exists E,
    Some sex_encoder = Some E /\
    [[Num 25; Num 0; Num 1]; [Num 40; Num 0; Num 0]] =
    List.map (fun r =>
          (if numeric_array (continuous_values census_unseen ["sex"] None)
           then List.map to_float64
                  (List.map (lookup_row (columns census_unseen) r)
                            (continuous_columns census_unseen ["sex"] None))
           else List.map (lookup_row (columns census_unseen) r)
                         (continuous_columns census_unseen ["sex"] None)) ++
          encode_row (categories_ E)
                     (List.map (lookup_row (columns census_unseen) r)
                               ["sex"])) (rows census_unseen) /\
    (forall z, (Z.abs z < 2 ^ 53)%Z -> to_float64 (Num z) = Num z) /\
    Forall (fun row =>
              length row =
              length (continuous_columns census_unseen ["sex"] None) +
              encoded_width (categories_ E))
           [[Num 25; Num 0; Num 1]; [Num 40; Num 0; Num 0]].
Proof.
  apply (process_data_inference_shape census_unseen ["sex"] None
           (Some sex_encoder) (Some sex_encoder) None None
           [[Num 25; Num 0; Num 1]; [Num 40; Num 0; Num 0]] (Ndarray [])).
  - destruct census_unseen_valid as [Hwf _]. exact Hwf.
  - reflexivity.
  - reflexivity.
Defined.

(** X17.  A type mismatch is not an unknown category: within the
    contract, when the categorical columns of the table hold integers
    only and the encoder has a string among its categories, the
    inference call raises [TypeError] at line 75, whatever the label
    and the binarizer. *)
Theorem process_data_type_mismatch (X : DataFrame) (cats : list string)
    (label : option string) (E : OneHotEncoder)
    (lb : option LabelBinarizer) :
  valid_call X cats label ->
  fitted_for E cats ->
  numeric_array (categorical_values X cats) = true ->
  has_str_category E = true ->
  process_data X cats label false (Some E) lb = Raise TypeError.
Proof.
  intros (Hwf & Hr & Hc & Hl & Hcats) Hf Hnum Hstr.
  rewrite process_data_stages, partition_columns_ok by assumption.
  cbn [bind]. unfold fit_or_transform. cbn [attr bind].
  rewrite ohe_transform_checked by assumption.
  now rewrite Hnum, Hstr.
Qed.

Lemma process_data_type_mismatch_witness :
  process_data census_coded ["sex"] None false (Some sex_encoder)
    (Some salary_binarizer) = Raise TypeError.
Proof.
  apply (process_data_type_mismatch census_coded ["sex"] None sex_encoder
           (Some salary_binarizer) census_coded_valid);
    reflexivity.
Defined.

(** The number of cells of a block that are 1. *)
Definition ones (l : list cell) : nat :=
  length (List.filter (cell_eqb (Num 1)) l).

Lemma ones_zeros (n : nat) : ones (repeat (Num 0) n) = 0.
Proof. induction n as [|n IH]; [reflexivity | exact IH]. Qed.

Lemma ones_one (l : list cell) : ones (Num 1 :: l) = S (ones l).
Proof. reflexivity. Qed.

Lemma ones_zero (l : list cell) : ones (Num 0 :: l) = ones l.
Proof. reflexivity. Qed.

(** The block of a value that is among distinct categories holds a
    single 1. *)
Lemma indicator_known (cats : list cell) (v : cell) :
  List.NoDup cats -> In v cats -> ones (indicator cats v) = 1.
Proof.
  induction 1 as [|c cs Hc Hnd IH]; [contradiction|].
  intros Hin.
  change (indicator (c :: cs) v)
    with ((if cell_eqb c v then Num 1 else Num 0) :: indicator cs v).
  destruct (cell_eqb c v) eqn:E.
  - apply cell_eqb_eq in E. subst c.
    rewrite ones_one, indicator_unknown by assumption.
    now rewrite ones_zeros.
  - rewrite ones_zero. apply IH.
    destruct Hin as [->|Hin]; [|assumption].
    rewrite cell_eqb_refl in E. discriminate.
Qed.

(** The block of the i-th categorical column inside an output row. *)
Lemma block_output_row (X : DataFrame) (cats : list string)
    (label : option string) (E : OneHotEncoder) (row : list cell)
    (i : nat) (name : string) (cs : list cell) :
  nth_error cats i = Some name ->
  nth_error (categories_ E) i = Some cs ->
  block (length (continuous_columns X cats label)) E i
        (output_row X cats label E row) =
  indicator cs (lookup_row (columns X) row name).
Proof.
  intros Hi Hcs. unfold block, block_offset, output_row.
  rewrite (nth_error_nth _ _ _ Hcs).
  rewrite <- (continuous_cells_length X cats label row).
  rewrite skipn_app_exact.
  apply encode_row_block; [assumption|]. now apply map_nth_error.
Qed.

(** X4.  The training output is one-hot: in every row of the matrix a
    training call returns, the indicator block of every categorical
    column holds exactly one 1. *)
Theorem process_data_training_one_hot (X : DataFrame) (cats : list string)
    (label : option string) (e0 enc : option OneHotEncoder)
    (l0 lb : option LabelBinarizer) (M : matrix) (y : labels) :
  wf_df X ->
  process_data X cats label true e0 l0 = Ok (M, y, enc, lb) ->
  exists E,
    enc = Some E /\
    forall i r out,
      i < length cats ->
      nth_error M r = Some out ->
      ones (block (length (continuous_columns X cats label)) E i out) = 1.
Proof.
  intros Hwf H.
  destruct (process_data_inv _ _ _ _ _ _ _ _ _ _ Hwf H)
    as (E & -> & Hr & _ & _ & _ & _ & -> & Hf).
  exists E. split; [reflexivity|].
  unfold fit_or_transform in Hf.
  destruct (ohe_fit_transform _) as [[E' Y]|] eqn:Eft; [|discriminate].
  cbn [bind] in Hf. destruct (values_attr _); [|discriminate].
  cbn [bind] in Hf. destruct (lb_fit_transform _) as [[B Yl]|];
    [|discriminate].
  cbn [bind fst snd] in Hf. injection Hf as _ _ -> _.
  apply ohe_fit_transform_spec in Eft. destruct Eft as [Hfit _].
  apply fitted_categories in Hfit; [|assumption].
  intros i r out Hi Hout.
  rewrite nth_error_map in Hout.
  destruct (nth_error (rows X) r) as [row|] eqn:Erow; [|discriminate].
  cbn [option_map] in Hout. injection Hout as <-.
  destruct (nth_error cats i) as [name|] eqn:Ename;
    [|apply nth_error_None in Ename; lia].
  assert (Hcs : nth_error (categories_ E) i =
                Some (sorted (unique (column_of X name)))).
  { rewrite Hfit, nth_error_map, Ename. reflexivity. }
  rewrite (block_output_row _ _ _ _ _ _ _ _ Ename Hcs).
  apply indicator_known.
  - eapply Permutation_NoDup; [apply sorted_perm | apply NoDup_unique].
  - apply In_sorted, In_unique. unfold column_of. apply in_map_iff.
    exists row. split; [reflexivity|]. eapply nth_error_In. eassumption.
Qed.

Lemma process_data_training_one_hot_witness :
  exists E,
    Some sex_encoder = Some E /\
    forall i r out,
      i < length ["sex"] ->
      nth_error census_matrix r = Some out ->
      ones (block (length (continuous_columns census_example ["sex"]
                             (Some "salary"))) E i out) = 1.
Proof.
  apply (process_data_training_one_hot census_example ["sex"]
           (Some "salary") None (Some sex_encoder) None
           (Some salary_binarizer) census_matrix (Ndarray [0%Z; 1%Z])
           census_example_wf).
  reflexivity.
Defined.

(** The columns left once the label has been dropped. *)
Lemma drop_label_columns (X X' : DataFrame) (l : string) :
  drop X [l] = Ok X' -> ~ In l (columns X') /\ incl (columns X') (columns X).
Proof.
  unfold drop. destruct (forallb _ _); [|discriminate]. intros [= <-].
  cbn [columns]. rewrite drop_labels_filter. split.
  - intros Hin. apply filter_In in Hin. destruct Hin as [_ Hin].
    rewrite mem_singleton, String.eqb_refl in Hin. discriminate.
  - intros c Hc. apply filter_In in Hc. tauto.
Qed.

(** What a successful split says about the names, on any table. *)
Lemma partition_columns_names (X : DataFrame) (cats : list string)
    (label : option string) (p : labels * matrix * matrix) :
  partition_columns X cats label = Ok p ->
  match label with Some l => In l (columns X) | None => True end /\
  Forall (fun n => In n (columns X) /\ label <> Some n) cats.
Proof.
  unfold partition_columns. destruct label as [l|]; cbn [bind].
  - destruct (getitem X l) as [yl|] eqn:Ey; [|discriminate]. cbn [bind].
    destruct (drop X [l]) as [X'|] eqn:Ed; [|discriminate]. cbn [bind fst snd].
    destruct (getitem_list X' cats) as [Xc|] eqn:Eg; [|discriminate].
    intros _. apply getitem_spec in Ey. destruct Ey as [Hl _].
    apply getitem_list_spec in Eg. destruct Eg as [Hin _].
    apply drop_label_columns in Ed. destruct Ed as [Hnot Hincl].
    split; [assumption|]. eapply List.Forall_impl; [|exact Hin].
    intros n Hn. split; [now apply Hincl | intros [= ->]; contradiction].
  - cbn [fst snd]. destruct (getitem_list X cats) as [Xc|] eqn:Eg;
      [|discriminate].
    intros _. apply getitem_list_spec in Eg. destruct Eg as [Hin _].
    split; [exact I|]. eapply List.Forall_impl; [|exact Hin].
    intros n Hn. split; [assumption | discriminate].
Qed.

Lemma process_data_bad_names (X : DataFrame) (cats : list string)
    (label : option string) (training : bool)
    (encoder : option OneHotEncoder) (lb : option LabelBinarizer) :
  ~ (match label with Some l => In l (columns X) | None => True end /\
     Forall (fun n => In n (columns X) /\ label <> Some n) cats) ->
  process_data X cats label training encoder lb = Raise KeyError.
Proof.
  intros Hbad. rewrite process_data_stages.
  destruct (partition_columns X cats label) as [p|e] eqn:Ep.
  - apply partition_columns_names in Ep. contradiction.
  - apply partition_columns_raises in Ep. now subst.
Qed.

(** X5.  Naming the label among the categorical features makes every
    call fail with [KeyError], in both modes: the label column is
    dropped at line 62 before the categorical columns are selected at
    line 66. *)
Theorem process_data_label_among_categoricals (X : DataFrame)
    (cats : list string) (l : string) (training : bool)
    (encoder : option OneHotEncoder) (lb : option LabelBinarizer) :
  In l cats ->
  process_data X cats (Some l) training encoder lb = Raise KeyError.
Proof.
  intros Hin. apply process_data_bad_names. intros [_ Hall].
  rewrite List.Forall_forall in Hall. destruct (Hall l Hin) as [_ Hne].
  now apply Hne.
Qed.

Lemma process_data_label_among_categoricals_witness :
  process_data census_example ["sex"; "salary"] (Some "salary") true
    None None = Raise KeyError.
Proof.
  apply (process_data_label_among_categoricals census_example
           ["sex"; "salary"] "salary" true None None).
  simpl. tauto.
Defined.

(** X6.  A label or a categorical feature that is not a column of the
    table makes every call fail with [KeyError], in both modes and
    whatever state is passed. *)
Theorem process_data_unknown_column (X : DataFrame) (cats : list string)
    (label : option string) (training : bool)
    (encoder : option OneHotEncoder) (lb : option LabelBinarizer) :
  (exists l, label = Some l /\ ~ In l (columns X)) \/
  (exists c, In c cats /\ ~ In c (columns X)) ->
  process_data X cats label training encoder lb = Raise KeyError.
Proof.
  intros Hbad. apply process_data_bad_names. intros [Hl Hall].
  destruct Hbad as [(l & -> & Hnot)|(c & Hc & Hnot)].
  - contradiction.
  - rewrite List.Forall_forall in Hall. destruct (Hall c Hc) as [Hin _].
    contradiction.
Qed.

Lemma process_data_unknown_column_witness :
  process_data census_features ["sex"] (Some "salary") false
    (Some sex_encoder) None = Raise KeyError.
Proof.
  apply (process_data_unknown_column census_features ["sex"]
           (Some "salary") false (Some sex_encoder) None).
  left. exists "salary". split; [reflexivity|].
  simpl. intuition discriminate.
Defined.

(** Lines 69-80 fail when scikit-learn's input validation refuses the
    categorical values. *)
Lemma fit_or_transform_refused (y : labels) (A : matrix) (training : bool)
    (encoder : option OneHotEncoder) (lb : option LabelBinarizer) :
  check_array A = Raise ValueError ->
  exists e, fit_or_transform y A training encoder lb = Raise e.
Proof.
  intros Hc. unfold fit_or_transform, ohe_fit_transform, ohe_fit,
    ohe_transform.
  destruct training.
  - rewrite Hc. cbn [bind]. eauto.
  - destruct encoder as [E|]; cbn [attr bind]; [|eauto].
    rewrite Hc. cbn [bind]. eauto.
Qed.

Lemma process_data_refused (X : DataFrame) (cats : list string)
    (label : option string) (training : bool)
    (encoder : option OneHotEncoder) (lb : option LabelBinarizer) :
  (forall y A Ac, partition_columns X cats label = Ok (y, A, Ac) ->
                  check_array A = Raise ValueError) ->
  exists e, process_data X cats label training encoder lb = Raise e.
Proof.
  intros Hc. rewrite process_data_stages.
  destruct (partition_columns X cats label) as [[[y A] Ac]|e] eqn:Ep;
    [|cbn [bind]; eauto].
  cbn [bind].
  destruct (fit_or_transform_refused y A training encoder lb
              (Hc _ _ _ eq_refl)) as [e ->].
  cbn [bind]. eauto.
Qed.

(** The categorical values as line 66 computes them, on any table. *)
Lemma partition_columns_categorical (X : DataFrame) (cats : list string)
    (label : option string) (y : labels) (A Ac : matrix) :
  partition_columns X cats label = Ok (y, A, Ac) ->
  exists (f : list cell -> list cell),
    A = List.map f (rows X) /\
    forall r, length (f r) = length cats.
Proof.
  unfold partition_columns.
  assert (Hsel : forall X0 Xc, getitem_list X0 cats = Ok Xc ->
            exists f, rows Xc = List.map f (rows X0) /\
                      forall r, length (f r) = length cats).
  { intros X0 Xc. unfold getitem_list.
    destruct (indices_of cats (columns X0)) as [ixs|] eqn:Ei; [|discriminate].
    cbn [bind]. intros [= <-]. cbn [rows].
    exists (fun r => List.map (fun i => cell_at i r) ixs).
    split; [reflexivity|]. intros r. rewrite length_map.
    clear -Ei. revert ixs Ei. induction cats as [|n ns IH]; simpl; intros ixs.
    - now intros [= <-].
    - destruct (index_of n (columns X0)); [|discriminate].
      destruct (indices_of ns (columns X0)) as [js|]; [|discriminate].
      cbn [bind]. intros [= <-]. simpl. f_equal. now apply IH. }
  destruct label as [l|]; cbn [bind].
  - destruct (getitem X l); [|discriminate]. cbn [bind].
    destruct (drop X [l]) as [X'|] eqn:Ed; [|discriminate]. cbn [bind fst snd].
    destruct (getitem_list X' cats) as [Xc|] eqn:Eg; [|discriminate].
    cbn [bind]. destruct (drop X' cats); [|discriminate]. cbn [bind].
    intros [= _ <- _]. destruct (Hsel _ _ Eg) as (f & Hf & Hlen).
    unfold drop in Ed. destruct (forallb _ _); [|discriminate].
    injection Ed as <-. cbn [rows] in Hf. rewrite map_map in Hf.
    eexists. split; [exact Hf | intros r; apply Hlen].
  - cbn [fst snd]. destruct (getitem_list X cats) as [Xc|] eqn:Eg;
      [|discriminate].
    cbn [bind]. destruct (drop X cats); [|discriminate]. cbn [bind].
    intros [= _ <- _]. exact (Hsel _ _ Eg).
Qed.

(** X7.  With no categorical feature, which is the default of the
    parameter, no call returns: scikit-learn refuses an array without
    features, both to fit and to transform. *)
Theorem process_data_no_categoricals (X : DataFrame)
    (label : option string) (training : bool)
    (encoder : option OneHotEncoder) (lb : option LabelBinarizer) :
  exists e, process_data X [] label training encoder lb = Raise e.
Proof.
  apply process_data_refused. intros y A Ac Hp.
  destruct (partition_columns_categorical _ _ _ _ _ _ Hp) as (f & -> & Hlen).
  destruct (rows X) as [|r rs]; [reflexivity|].
  cbn [List.map check_array]. now rewrite Hlen.
Qed.

(** X8.  On a table without rows no call returns, in either mode. *)
Theorem process_data_empty_table (X : DataFrame) (cats : list string)
    (label : option string) (training : bool)
    (encoder : option OneHotEncoder) (lb : option LabelBinarizer) :
  rows X = [] ->
  exists e, process_data X cats label training encoder lb = Raise e.
Proof.
  intros Hr. apply process_data_refused. intros y A Ac Hp.
  destruct (partition_columns_categorical _ _ _ _ _ _ Hp) as (f & -> & _).
  now rewrite Hr.
Qed.

Lemma process_data_empty_table_witness :
  exists e,
    process_data {| columns := ["age"; "sex"]; rows := [] |} ["sex"] None
      false (Some sex_encoder) None = Raise e.
Proof.
  apply (process_data_empty_table {| columns := ["age"; "sex"]; rows := [] |}
           ["sex"] None false (Some sex_encoder) None).
  reflexivity.
Defined.

(** X9.  An encoder fitted on another number of features than the call
    names is refused: within the contract, the inference call raises
    [ValueError]. *)
Theorem process_data_feature_count_mismatch (X : DataFrame)
    (cats : list string) (label : option string) (E : OneHotEncoder)
    (lb : option LabelBinarizer) :
  valid_call X cats label ->
  length (categories_ E) <> length cats ->
  process_data X cats label false (Some E) lb = Raise ValueError.
Proof.
  intros (Hwf & Hr & Hc & Hl & Hcats) Hne.
  rewrite process_data_stages, partition_columns_ok by assumption.
  cbn [bind]. unfold fit_or_transform. cbn [attr bind].
  unfold ohe_transform, categorical_values.
  destruct (rows X) as [|r rs]; [congruence|].
  cbn [List.map]. rewrite check_array_rows
    by (rewrite length_map; destruct cats; [congruence | discriminate]).
  cbn [bind]. rewrite length_map.
  replace (Nat.eqb (length cats) (length (categories_ E))) with false;
    [reflexivity|].
  symmetry. apply Nat.eqb_neq. congruence.
Qed.

Lemma process_data_feature_count_mismatch_witness :
  process_data census_unseen ["sex"] None false
    (Some {| categories_ := [[Str "F"; Str "M"]; [Num 1]] |}) None =
  Raise ValueError.
Proof.
  apply (process_data_feature_count_mismatch census_unseen ["sex"] None
           {| categories_ := [[Str "F"; Str "M"]; [Num 1]] |} None
           census_unseen_valid).
  discriminate.
Defined.

Lemma cell_leb_total (a b : cell) :
  is_num a = is_num b -> cell_leb a b = false -> cell_leb b a = true.
Proof.
  destruct a as [x|s], b as [z|t]; simpl; try discriminate; intros _ H.
  - apply Z.leb_le. apply Z.leb_gt in H. lia.
  - destruct (String.leb_total s t) as [Hst|Hts]; congruence.
Qed.

Lemma unmixed_same_type (l : list cell) (a b : cell) :
  mixed l = false -> In a l -> In b l -> is_num a = is_num b.
Proof.
  unfold mixed. intros Hm Ha Hb.
  destruct (is_num a) eqn:Ea, (is_num b) eqn:Eb; try reflexivity.
  - assert (H1 : existsb is_num l = true)
      by (apply existsb_exists; eauto).
    assert (H2 : existsb (fun c => negb (is_num c)) l = true)
      by (apply existsb_exists; exists b; split; [assumption|];
          now rewrite Eb).
    rewrite H1, H2 in Hm. discriminate.
  - assert (H1 : existsb is_num l = true)
      by (apply existsb_exists; eauto).
    assert (H2 : existsb (fun c => negb (is_num c)) l = true)
      by (apply existsb_exists; exists a; split; [assumption|];
          now rewrite Ea).
    rewrite H1, H2 in Hm. discriminate.
Qed.

(** Two sorted classes: distinct, and in Python's order. *)
Lemma sorted_pair (l : list cell) (a b : cell) :
  mixed l = false -> sorted (unique l) = [a; b] ->
  a <> b /\ cell_leb a b = true /\ length (unique l) = 2.
Proof.
  intros Hm Hs.
  assert (Hlen : length (unique l) = 2)
    by (rewrite <- sorted_length, Hs; reflexivity).
  assert (Hnd : List.NoDup [a; b]).
  { rewrite <- Hs. eapply Permutation_NoDup;
      [apply sorted_perm | apply NoDup_unique]. }
  splits; try assumption.
  - intros ->. inversion Hnd as [|? ? Hnot _]. apply Hnot. now left.
  - destruct (unique l) as [|u1 [|u2 [|u3 us]]] eqn:Eu; try discriminate.
    assert (H1 : In u1 l) by (apply In_unique; rewrite Eu; now left).
    assert (H2 : In u2 l) by (apply In_unique; rewrite Eu; right; now left).
    unfold sorted in Hs. cbn [fold_right insert_sorted] in Hs.
    destruct (cell_leb u1 u2) eqn:E12.
    + injection Hs as <- <-. exact E12.
    + injection Hs as <- <-. apply cell_leb_total; [|exact E12].
      eapply unmixed_same_type; eassumption.
Qed.

Lemma label_binarize_pair (y : list cell) (a b : cell) :
  length (unique y) = 2 ->
  ravel (label_binarize y [a; b]) =
  List.map (fun v => if cell_eqb b v then 1%Z else 0%Z) y.
Proof.
  intros Hu. unfold label_binarize, type_of_target. rewrite Hu.
  cbn [Nat.leb is_binary andb length Nat.eqb].
  unfold ravel. rewrite map_map. cbn [List.map List.last].
  induction y as [|v vs IH]; [reflexivity|].
  cbn [List.map concat app]. f_equal.
  clear -vs. induction vs as [|w ws IHw]; [reflexivity|].
  cbn [List.map concat app]. now f_equal.
Qed.

(** X10.  Binary labels: when a training call returns a binarizer with
    two classes [a; b], the classes are distinct and in Python's order
    (a before b), and the label vector has one entry per row of the
    table: 1 where the row's label is b, 0 elsewhere. *)
Theorem process_data_training_binary_labels (X : DataFrame)
    (cats : list string) (l : string) (e0 enc : option OneHotEncoder)
    (l0 : option LabelBinarizer) (B : LabelBinarizer)
    (M : matrix) (y : labels) (a b : cell) :
  wf_df X ->
  process_data X cats (Some l) true e0 l0 = Ok (M, y, enc, Some B) ->
  classes_ B = [a; b] ->
  a <> b /\ cell_leb a b = true /\
  y = Ndarray (List.map (fun v => if cell_eqb b v then 1%Z else 0%Z)
                        (column_of X l)).
Proof.
  intros Hwf H Hcl.
  destruct (process_data_inv _ _ _ _ _ _ _ _ _ _ Hwf H)
    as (E & _ & _ & _ & _ & _ & _ & _ & Hf).
  unfold fit_or_transform in Hf.
  destruct (ohe_fit_transform _) as [[E' Y]|]; [|discriminate].
  cbn [bind raw_labels values_attr] in Hf. fold (column_of X l) in Hf.
  destruct (lb_fit_transform (column_of X l)) as [[B' Yl]|] eqn:El;
    [|discriminate].
  cbn [bind fst snd] in Hf. injection Hf as _ <- _ ->.
  apply lb_fit_transform_spec in El. destruct El as [Hfit ->].
  unfold lb_fit in Hfit.
  destruct (Nat.eqb (length (column_of X l)) 0); [discriminate|].
  destruct (mixed (column_of X l)) eqn:Em; [discriminate|].
  injection Hfit as <-. cbn [classes_] in Hcl.
  destruct (sorted_pair _ _ _ Em Hcl) as (Hne & Hle & Hu).
  splits; try assumption.
  cbn [classes_]. rewrite Hcl. f_equal. now apply label_binarize_pair.
Qed.

Lemma process_data_training_binary_labels_witness :
  Str "<=50K" <> Str ">50K" /\
  cell_leb (Str "<=50K") (Str ">50K") = true /\
  Ndarray [0%Z; 1%Z] =
  Ndarray (List.map (fun v => if cell_eqb (Str ">50K") v then 1%Z else 0%Z)
                    (column_of census_example "salary")).
Proof.
  apply (process_data_training_binary_labels census_example ["sex"]
           "salary" None (Some sex_encoder) None salary_binarizer
           census_matrix (Ndarray [0%Z; 1%Z]) (Str "<=50K") (Str ">50K")
           census_example_wf).
  - reflexivity.
  - reflexivity.
Defined.

Lemma filter_split_length {A : Type} (f : A -> bool) (l : list A) :
  length (List.filter f l) + length (List.filter (fun x => negb (f x)) l) =
  length l.
Proof.
  induction l as [|a l IH]; simpl; [reflexivity|].
  destruct (f a); simpl; lia.
Qed.

Lemma filter_eqb_length (cols : list string) (l : string) :
  List.NoDup cols -> In l cols ->
  length (List.filter (fun c => String.eqb c l) cols) = 1.
Proof.
  induction 1 as [|c cs Hc Hnd IH]; [contradiction|].
  intros Hl. cbn [List.filter]. destruct (String.eqb c l) eqn:E.
  - apply String.eqb_eq in E. subst c. cbn [length]. f_equal.
    destruct (List.filter (fun c => String.eqb c l) cs) as [|x xs] eqn:Ef;
      [reflexivity|].
    assert (Hx : In x (List.filter (fun c => String.eqb c l) cs))
      by (rewrite Ef; now left).
    apply filter_In in Hx. destruct Hx as [Hx Ex].
    apply String.eqb_eq in Ex. subst x. contradiction.
  - apply IH. destruct Hl as [->|Hl]; [|assumption].
    rewrite String.eqb_refl in E. discriminate.
Qed.

Lemma filter_label_length (cols : list string) (label : option string) :
  List.NoDup cols ->
  match label with Some l => In l cols | None => True end ->
  length (List.filter (is_label label) cols) =
  match label with Some _ => 1 | None => 0 end.
Proof.
  intros Hnd Hl. destruct label as [l|].
  - rewrite (filter_ext (is_label (Some l)) (fun c => String.eqb c l))
      by reflexivity.
    now apply filter_eqb_length.
  - clear. induction cols as [|c cs IH]; [reflexivity | exact IH].
Qed.

(** No feature column is lost or taken twice by the split of lines
    66-67. *)
Lemma column_count (X : DataFrame) (cats : list string)
    (label : option string) :
  List.NoDup (columns X) -> List.NoDup cats ->
  match label with Some l => In l (columns X) | None => True end ->
  Forall (fun n => In n (columns X) /\ is_label label n = false) cats ->
  length cats + length (continuous_columns X cats label) +
  match label with Some _ => 1 | None => 0 end =
  length (columns X).
Proof.
  intros Hnd Hndc Hl Hcats.
  pose proof (filter_split_length (is_label label) (columns X)) as H1.
  pose proof (filter_split_length (fun c => mem c cats)
                (List.filter (fun c => negb (is_label label c)) (columns X)))
    as H2.
  rewrite (filter_label_length _ _ Hnd Hl) in H1.
  rewrite (filter_filter_andb (fun c => negb (is_label label c))
             (fun c => negb (mem c cats))) in H2.
  fold (continuous_columns X cats label) in H2.
  assert (Hk : length (List.filter (fun c => mem c cats)
                 (List.filter (fun c => negb (is_label label c)) (columns X)))
               = length cats).
  { apply Permutation_length. apply Permutation.NoDup_Permutation.
    - now do 2 apply List.NoDup_filter.
    - assumption.
    - intros x. rewrite !filter_In, mem_In. split; [tauto|].
      intros Hx. rewrite List.Forall_forall in Hcats.
      destruct (Hcats x Hx) as [Hin Hlab]. rewrite Hlab. tauto. }
  lia.
Qed.

(** X11.  The width of the output in terms of the table: with distinct
    categorical features, every row of the matrix of a call that
    returns has as many cells as the table has columns, less the label
    and the categorical columns, plus the fitted categories of the
    returned encoder. *)
Theorem process_data_width_by_columns (X : DataFrame) (cats : list string)
    (label : option string) (training : bool)
    (e0 : option OneHotEncoder) (E : OneHotEncoder)
    (l0 lb : option LabelBinarizer) (M : matrix) (y : labels) :
  wf_df X ->
  List.NoDup cats ->
  process_data X cats label training e0 l0 = Ok (M, y, Some E, lb) ->
  Forall (fun row =>
            length row + length cats +
            match label with Some _ => 1 | None => 0 end =
            length (columns X) + encoded_width (categories_ E)) M.
Proof.
  intros Hwf Hndc H.
  destruct (process_data_inv _ _ _ _ _ _ _ _ _ _ Hwf H)
    as (E' & [= <-] & _ & Hk & _ & Hl & Hcats & -> & _).
  destruct Hwf as [Hnd _].
  pose proof (column_count X cats label Hnd Hndc Hl Hcats) as Hcount.
  apply List.Forall_forall. intros row Hin.
  apply in_map_iff in Hin. destruct Hin as (r & <- & _).
  rewrite (output_row_length X cats label E r Hk). lia.
Qed.

Lemma process_data_width_by_columns_witness :
  Forall (fun row =>
            length row + length ["sex"] + 1 =
            length (columns census_example) +
            encoded_width (categories_ sex_encoder)) census_matrix.
Proof.
  apply (process_data_width_by_columns census_example ["sex"]
           (Some "salary") true None sex_encoder None
           (Some salary_binarizer) census_matrix (Ndarray [0%Z; 1%Z])
           census_example_wf).
  - repeat constructor. simpl. tauto.
  - reflexivity.
Defined.

(* ===================================================================== *)
(** ** Further properties of the slice reporter                           *)
(* ===================================================================== *)

Section ReporterEdges.

Context {Model Pred Metric : Type}.
Variable predict : Model -> matrix -> result Pred.
Variable compute_model_metrics :
  labels -> Pred -> result (Metric * Metric * Metric).
Variable str_of_metric : Metric -> string.
Variable model : Model.
Variable data : DataFrame.
Variable encoder : option OneHotEncoder.
Variable lb : option LabelBinarizer.
Variable cats : list string.

(** X12.  The reporter touches no file but the report: for every
    invocation, failed ones included, the outcome and the final content
    of the report do not depend on the file system it starts from, and
    every other path keeps its content. *)
Theorem slide_performance_touches_only_report (fs1 fs2 : filesystem) :
  let run := slide_performance predict compute_model_metrics str_of_metric
               model data encoder lb cats in
  fst (run fs1) = fst (run fs2) /\
  snd (run fs1) !! log_path = snd (run fs2) !! log_path /\
  forall path, path <> log_path -> snd (run fs1) !! path = fs1 !! path.
Proof.
  cbv zeta. rewrite !slide_performance_overwrites. cbn [fst snd]. splits.
  - reflexivity.
  - now rewrite !lookup_insert_eq.
  - intros path Hne. now apply lookup_insert_ne.
Qed.

(** With a column name that the table cannot serve, every slice fails
    with [KeyError] before anything is written. *)
Lemma slice_line_bad_names (c : string) (v : cell) :
  ~ (In "salary" (columns data) /\
     Forall (fun n => In n (columns data) /\ Some "salary" <> Some n) cats) ->
  slice_line predict compute_model_metrics str_of_metric model data
    encoder lb cats c v = Raise KeyError.
Proof.
  intros Hbad. unfold slice_line, filter_eq.
  destruct (index_of c (columns data)); [|reflexivity].
  cbn [bind]. rewrite process_data_bad_names; [reflexivity|].
  exact Hbad.
Qed.

(** X13.  When the table has rows and the reporter is given a column it
    cannot serve (no [salary] column, [salary] among the categorical
    features, or a categorical feature that is not a column), the
    invocation raises [KeyError] and leaves an empty report: the file is
    truncated before the first slice is cut. *)
Theorem slide_performance_bad_columns (fs : filesystem) :
  ~ In "salary" (columns data) \/ In "salary" cats \/
  (exists c, In c cats /\ ~ In c (columns data)) ->
  cats <> [] ->
  rows data <> [] ->
  slide_performance predict compute_model_metrics str_of_metric model data
    encoder lb cats fs =
  (Raise KeyError, <[log_path := EmptyString]> fs).
Proof.
  intros Hbad Hc Hr.
  assert (Hnames : ~ (In "salary" (columns data) /\
     Forall (fun n => In n (columns data) /\ Some "salary" <> Some n) cats)).
  { intros [Hs Hall]. rewrite List.Forall_forall in Hall.
    destruct Hbad as [Hno|[Hin|(c & Hin & Hno)]].
    - contradiction.
    - destruct (Hall _ Hin) as [_ Hne]. now apply Hne.
    - destruct (Hall _ Hin) as [Hyes _]. contradiction. }
  rewrite slide_performance_overwrites.
  assert (Hlines : forall todo, todo <> [] ->
            lines_of_categoricals predict compute_model_metrics
              str_of_metric model data encoder lb cats todo =
            (Raise KeyError, [])).
  { intros [|c cs] Htodo; [congruence|].
    cbn [lines_of_categoricals]. unfold getitem.
    destruct (index_of c (columns data)) as [i|]; [|reflexivity].
    destruct (rows data) as [|r rs] eqn:Er; [congruence|].
    cbn [List.map unique lines_of_values].
    now rewrite (slice_line_bad_names c (cell_at i r) Hnames). }
  now rewrite (Hlines cats Hc).
Qed.

(** X14.  On a table without rows there is no slice: the invocation
    ends normally with an empty report, whatever model, encoder and
    binarizer are passed, as long as the categorical features are
    columns of the table. *)
Theorem slide_performance_empty_table (fs : filesystem) :
  rows data = [] ->
  incl cats (columns data) ->
  slide_performance predict compute_model_metrics str_of_metric model data
    encoder lb cats fs =
  (Ok tt, <[log_path := EmptyString]> fs).
Proof.
  intros Hr Hincl. rewrite slide_performance_overwrites.
  assert (Hlines : forall todo, incl todo (columns data) ->
            lines_of_categoricals predict compute_model_metrics
              str_of_metric model data encoder lb cats todo = (Ok tt, [])).
  { induction todo as [|c cs IH]; intros Hin; [reflexivity|].
    cbn [lines_of_categoricals].
    rewrite (getitem_In data c) by (apply Hin; now left).
    rewrite Hr. cbn [List.map unique lines_of_values].
    rewrite IH by (intros x Hx; apply Hin; now right). reflexivity. }
  now rewrite Hlines.
Qed.

End ReporterEdges.

Lemma slide_performance_bad_columns_witness :
  slide_performance zero_model unit_metrics str_of_Z tt census_features
    (Some sex_encoder) (Some salary_binarizer) ["sex"] ∅ =
  (Raise KeyError, <[log_path := EmptyString]> ∅).
Proof.
  apply (slide_performance_bad_columns zero_model unit_metrics str_of_Z tt
           census_features (Some sex_encoder) (Some salary_binarizer)
           ["sex"] ∅).
  - left. simpl. intuition discriminate.
  - discriminate.
  - discriminate.
Defined.

Lemma slide_performance_empty_table_witness :
  slide_performance zero_model unit_metrics str_of_Z tt
    {| columns := ["age"; "sex"]; rows := [] |} None None ["sex"] ∅ =
  (Ok tt, <[log_path := EmptyString]> ∅).
Proof.
  apply (slide_performance_empty_table zero_model unit_metrics str_of_Z tt
           {| columns := ["age"; "sex"]; rows := [] |} None None ["sex"] ∅).
  - reflexivity.
  - intros x Hx. simpl in *. tauto.
Defined.

(** X16.  What an indicator cell says: in the matrix of any call that
    returns, in either mode, cell j of the block of a categorical column
    is 1 when the row's value in that column is the j-th category of the
    returned encoder for the column, and 0 when it is not. *)
Theorem process_data_indicator_cells (X : DataFrame) (cats : list string)
    (label : option string) (training : bool)
    (e0 : option OneHotEncoder) (E : OneHotEncoder)
    (l0 lb : option LabelBinarizer) (M : matrix) (y : labels) :
  wf_df X ->
  process_data X cats label training e0 l0 = Ok (M, y, Some E, lb) ->
  forall i name cs r row out j c,
    nth_error cats i = Some name ->
    nth_error (categories_ E) i = Some cs ->
    nth_error (rows X) r = Some row ->
    nth_error M r = Some out ->
    nth_error cs j = Some c ->
    nth_error (block (length (continuous_columns X cats label)) E i out) j =
    Some (if cell_eqb c (lookup_row (columns X) row name)
          then Num 1 else Num 0).
Proof.
  intros Hwf H.
  destruct (process_data_inv _ _ _ _ _ _ _ _ _ _ Hwf H)
    as (E' & [= <-] & _ & _ & _ & _ & _ & -> & _).
  intros i name cs r row out j c Hi Hcs Hrow Hout Hj.
  rewrite nth_error_map, Hrow in Hout. cbn [option_map] in Hout.
  injection Hout as <-.
  rewrite (block_output_row _ _ _ _ _ _ _ _ Hi Hcs).
  unfold indicator. rewrite nth_error_map, Hj. reflexivity.
Qed.

Lemma process_data_indicator_cells_witness :
  nth_error (block (length (continuous_columns census_example ["sex"]
                              (Some "salary"))) sex_encoder 0
                   [Num 25; Num 0; Num 1]) 1 =
  Some (if cell_eqb (Str "M")
             (lookup_row (columns census_example)
                [Num 25; Str "M"; Str "<=50K"] "sex")
        then Num 1 else Num 0).
Proof.
  apply (process_data_indicator_cells census_example ["sex"]
           (Some "salary") true None sex_encoder None
           (Some salary_binarizer) census_matrix (Ndarray [0%Z; 1%Z])
           census_example_wf eq_refl
           0 "sex" [Str "F"; Str "M"] 0 [Num 25; Str "M"; Str "<=50K"]
           [Num 25; Num 0; Num 1] 1 (Str "M"));
    reflexivity.
Defined.
